(** * TashaApi: the document question-answering server [bot.py]

    A shallow embedding of the Flask handlers of [bot.py] and the proofs of
    the properties its specification states about them.

    The handlers work on two pieces of state: the module-level dictionary
    [loaded_documents] (a Python [dict], modelled in insertion order) and the
    upload directory on disk (a finite map from paths to nodes).  The
    third-party functions the handlers call (werkzeug's [secure_filename],
    python-docx, PyPDF2, the UTF-8 decoder, the remote completion client) are
    not code of this repository: they are the fields of the record
    [External], or an argument of the handler, and every theorem holds for
    all of them.

    Python [str] values are modelled by [string] (ASCII text); an exception
    that a [try] block catches is a value [Raise msg], [msg] being [str(e)].
    Requests are served one at a time.  What the handlers print to the
    console is left out, and so is the size limit of line 22, which Flask
    applies while it parses a request. *)

From stdpp Require Import gmap strings list fin_maps pretty.
From Stdlib Require QArith.
From Stdlib Require Import Ascii.

Set Warnings "-register-all,-clear-no-such-hyp".

Abbreviation Q := QArith_base.Q.

(** ** Python strings *)

Module Str.

Definition chars : string → list ascii := String.list_ascii_of_string.
Definition of_chars : list ascii → string := String.string_of_list_ascii.

Definition newline : string := String "010"%char EmptyString.
Definition dquote : string := String "034"%char EmptyString.

(** [c.lower()] on one ASCII character. *)
Definition lower_char (c : ascii) : ascii :=
  let n := nat_of_ascii c in
  if (65 <=? n) && (n <=? 90) then ascii_of_nat (n + 32) else c.

(** [s.lower()] *)
Fixpoint lower (s : string) : string :=
  match s with
  | EmptyString => EmptyString
  | String c s' => String (lower_char c) (lower s')
  end.

(** [c in s] for a one-character [c]. *)
Fixpoint contains (c : ascii) (s : string) : bool :=
  match s with
  | EmptyString => false
  | String a s' => if decide (a = c) then true else contains c s'
  end.

(** The split of [s] at its last [c]: [s.rpartition(c)] without the
    separator, [None] when [c] does not occur. *)
Fixpoint rpartition (c : ascii) (s : string) : option (string * string) :=
  match s with
  | EmptyString => None
  | String a s' =>
      match rpartition c s' with
      | Some (h, t) => Some (String a h, t)
      | None => if decide (a = c) then Some (EmptyString, s') else None
      end
  end.

(** [s.rsplit(c, 1)] *)
Definition rsplit1 (c : ascii) (s : string) : list string :=
  match rpartition c s with
  | Some (h, t) => [h; t]
  | None => [s]
  end.

(** [s.endswith(suf)] *)
Definition endswith (s suf : string) : bool :=
  bool_decide (chars suf `suffix_of` chars s).

(** [s[:-n]] *)
Definition drop_last (n : nat) (s : string) : string :=
  of_chars (take (String.length s - n) (chars s)).

(** [s.startswith(pre)] *)
Definition startswith (s pre : string) : bool :=
  bool_decide (chars pre `prefix_of` chars s).

(** [sep.join(l)] *)
Fixpoint join (sep : string) (l : list string) : string :=
  match l with
  | [] => EmptyString
  | [s] => s
  | s :: l' => s +:+ sep +:+ join sep l'
  end.

(** Truth value of a [str]: [bool(s)]. *)
Definition truthy (s : string) : bool :=
  match s with EmptyString => false | _ => true end.

End Str.

(** ** Exceptions

    [result A] is the outcome of a Python expression that either evaluates to
    an [A] or raises an exception whose [str(e)] is [msg]. *)

Inductive result (A : Type) : Type :=
  | Ok (a : A)
  | Raise (msg : string).
Arguments Ok {A} a.
Arguments Raise {A} msg.

Definition rbind {A B} (r : result A) (k : A → result B) : result B :=
  match r with
  | Ok a => k a
  | Raise msg => Raise msg
  end.

Notation "x ← r ;;; k" := (rbind r (λ x, k))
  (at level 20, r at level 100, k at level 200, right associativity,
   format "x  ←  r  ;;;  '/' k").

(** [try: body except Exception as e: return prefix + str(e)] *)
Definition try_except (body : result string) (prefix : string) : string :=
  match body with
  | Ok s => s
  | Raise msg => prefix +:+ msg
  end.

(** ** Python dictionaries with string keys, in insertion order *)

Module Dict.
Section Values.
Context {V : Type}.

Definition t := list (string * V).

(** [d.get(k)] *)
Fixpoint get (k : string) (d : list (string * V)) : option V :=
  match d with
  | [] => None
  | (k', v) :: d' => if decide (k = k') then Some v else get k d'
  end.

(** [d.get(k, dflt)] *)
Definition get_default (k : string) (dflt : V) (d : list (string * V)) : V :=
  default dflt (get k d).

(** [k in d] *)
Definition mem (k : string) (d : list (string * V)) : bool :=
  bool_decide (is_Some (get k d)).

(** [d[k] = v]: an existing key keeps its place, a new one goes last. *)
Fixpoint set (k : string) (v : V) (d : list (string * V)) : list (string * V) :=
  match d with
  | [] => [(k, v)]
  | (k', v') :: d' =>
      if decide (k = k') then (k, v) :: d' else (k', v') :: set k v d'
  end.

(** [list(d.keys())] and [list(d.values())] *)
Definition keys (d : list (string * V)) : list string := d.*1.
Definition values (d : list (string * V)) : list V := d.*2.

(** [d.clear()] *)
Definition clear (d : list (string * V)) : list (string * V) := [].

(** [bool(d)] *)
Definition truthy (d : list (string * V)) : bool :=
  match d with [] => false | _ => true end.
End Values.
End Dict.

(** ** JSON values: what [request.json] yields and [jsonify] takes

    Numbers are the integers; an object keeps its fields in order. *)

Inductive json : Type :=
  | JNull
  | JBool (b : bool)
  | JNum (n : Z)
  | JStr (s : string)
  | JArr (l : list json)
  | JObj (fields : list (string * json)).

(** [bool(v)] of the Python value decoded from [v]. *)
Definition json_truthy (v : json) : bool :=
  match v with
  | JNull => false
  | JBool b => b
  | JNum n => negb (n =? 0)%Z
  | JStr s => Str.truthy s
  | JArr l => match l with [] => false | _ => true end
  | JObj f => match f with [] => false | _ => true end
  end.

(** [v[k]] of a JSON object, [None] when [v] has no such field. *)
Definition json_field (k : string) (v : json) : option json :=
  match v with
  | JObj fields => Dict.get k fields
  | _ => None
  end.

(** ** The file system under the upload directory *)

Abbreviation bytes := (list Byte.byte).

Inductive node : Type :=
  | File (content : bytes)
  | Dir.

Abbreviation filesystem := (gmap string node).

(** [os.path.exists(p)] *)
Definition os_path_exists (fs : filesystem) (p : string) : bool :=
  bool_decide (is_Some (fs !! p)).

(** [os.path.join(a, b)] on POSIX. *)
Definition os_path_join (a b : string) : string :=
  if Str.startswith b "/" then b
  else if Str.truthy a && negb (Str.endswith a "/") then a +:+ "/" +:+ b
  else a +:+ b.

(** Reading the bytes at [p], as [open(p, 'rb').read()] does. *)
Definition read_bytes (fs : filesystem) (p : string) : result bytes :=
  match fs !! p with
  | Some (File content) => Ok content
  | Some Dir => Raise ("[Errno 21] Is a directory: " +:+ p)
  | None => Raise ("[Errno 2] No such file or directory: " +:+ p)
  end.

(** [file.save(p)]: creates or truncates the regular file [p]. *)
Definition file_save (fs : filesystem) (p : string) (content : bytes)
  : result filesystem :=
  match fs !! p with
  | Some Dir => Raise ("[Errno 21] Is a directory: " +:+ p)
  | _ => Ok (<[p := File content]> fs)
  end.

(** ** The libraries the handlers call

    The functions of the third-party packages, on the data they are given.
    A parser gets the bytes of the file it opens. *)

Class External := {
  (** [werkzeug.utils.secure_filename] *)
  secure_filename : string → string;
  (** python-docx: [[para.text for para in Document(path).paragraphs]] *)
  docx_paragraphs : bytes → result (list string);
  (** PyPDF2: [PdfReader(path).pages], each page as the outcome of its
      [extract_text()] *)
  pdf_pages : bytes → result (list (result string));
  (** the text of a file opened with [encoding='utf-8'] *)
  utf8_decode : bytes → result string;
  (** [format(v)] of a decoded JSON value that is not a [str] *)
  py_format : json → string;
}.

(** The remote completion service: the arguments of one call. *)
Record turn := { role : string; content : string }.

Record completion_request := {
  model : string;
  messages : list turn;
  temperature : Q;
  max_tokens : Z;
}.

(** One call answers [response.choices[0].message.content], a [str] or
    [None], or raises. *)
Abbreviation completion_api := (completion_request → result (option string)).

(** ** Requests, responses and the server state *)

Record file_storage := { filename : string; stream : bytes }.

(** An upload request: [request.files.get('file')]. *)
Abbreviation upload_request := (option file_storage).

(** A chat request: the outcome of evaluating [request.json]. *)
Abbreviation chat_request := (result json).

(** [jsonify(body), status] *)
Record response := { status : nat; body : json }.

Record server := {
  loaded_documents : list (string * string);
  disk : filesystem;
}.

(** ** Configuration (lines 17-18) *)

Definition UPLOAD_FOLDER : string := "uploads".
Definition ALLOWED_EXTENSIONS : gset string := {[ "docx"; "txt"; "pdf" ]}.

(** ** [allowed_file] (lines 34-35)

    The index [[1]] is looked up only when the name has a dot; the branch
    [None] of the lookup is the [IndexError] that the guard excludes. *)
Definition allowed_file (filename : string) : bool :=
  Str.contains "." filename &&
  match Str.rsplit1 "." filename !! 1 with
  | Some ext => bool_decide (Str.lower ext ∈ ALLOWED_EXTENSIONS)
  | None => false
  end.

(** The extension of a name, as [allowed_file] reads it: what follows the
    last dot, if the name has one. *)
Definition extension (filename : string) : option string :=
  snd <$> Str.rpartition "." filename.

Section Handlers.
Context `{ext : External}.

(** *** The text extractors (lines 37-62) *)

(** Each extractor is a [try] block and its handler; the block is a
    definition of its own, [Raise msg] when a statement in it raises. *)

Definition docx_text (fs : filesystem) (file_path : string) : result string :=
  content ← read_bytes fs file_path ;;;
  paragraphs ← docx_paragraphs content ;;;
  Ok (Str.join Str.newline paragraphs).

Definition extract_text_from_docx (fs : filesystem) (file_path : string)
  : string :=
  try_except (docx_text fs file_path) "Error reading document: ".

Definition txt_text (fs : filesystem) (file_path : string) : result string :=
  content ← read_bytes fs file_path ;;; utf8_decode content.

Definition extract_text_from_txt (fs : filesystem) (file_path : string)
  : string :=
  try_except (txt_text fs file_path) "Error reading document: ".

(** The loop of lines 56-59 over the pages still to visit, [pages] being
    the list built so far. *)
Fixpoint pdf_loop (todo : list (result string)) (pages : list string)
  : result (list string) :=
  match todo with
  | [] => Ok pages
  | page :: todo' =>
      txt ← page ;;;
      pdf_loop todo' (if Str.truthy txt then pages ++ [txt] else pages)
  end.

Definition pdf_text (fs : filesystem) (file_path : string) : result string :=
  content ← read_bytes fs file_path ;;;
  reader_pages ← pdf_pages content ;;;
  pages ← pdf_loop reader_pages [] ;;;
  Ok (Str.join Str.newline pages).

Definition extract_text_from_pdf (fs : filesystem) (file_path : string)
  : string :=
  try_except (pdf_text fs file_path) "Error reading PDF: ".

(** *** [health] (lines 71-74) *)
Definition health : response :=
  {| status := 200; body := JObj [("status", JStr "Server is running")] |}.

(** *** [upload_document] (lines 76-122) *)

(** Lines 97-108: the text of the file just saved as [filename]. *)
Definition upload_text (fs : filesystem) (filename file_path : string)
  : string :=
  if Str.endswith (Str.lower filename) ".docx" then
    extract_text_from_docx fs file_path
  else if Str.endswith (Str.lower filename) ".pdf" then
    let base := Str.drop_last 4 filename in
    let docx_equiv := os_path_join UPLOAD_FOLDER (base +:+ ".docx") in
    if os_path_exists fs docx_equiv then
      extract_text_from_docx fs docx_equiv
    else
      extract_text_from_pdf fs file_path
  else
    extract_text_from_txt fs file_path.

Definition upload_error (msg : string) : response :=
  {| status := 400; body := JObj [("error", JStr msg)] |}.

Definition upload_document (req : upload_request) (st : server)
  : response * server :=
  match req with
  | None => (upload_error "No file provided", st)
  | Some file =>
      if decide (filename file = "") then
        (upload_error "No file selected", st)
      else if negb (allowed_file (filename file)) then
        (upload_error "File type not allowed. Use DOCX, TXT, or PDF", st)
      else
        let filename := secure_filename (filename file) in
        let file_path := os_path_join UPLOAD_FOLDER filename in
        match file_save (disk st) file_path (stream file) with
        | Raise e =>
            ({| status := 500;
                body := JObj [("error", JStr "Internal server error");
                              ("details", JStr e)] |}, st)
        | Ok fs =>
            let doc_text := upload_text fs filename file_path in
            ({| status := 200;
                body := JObj
                  [("success", JBool true);
                   ("message",
                    JStr ("Document " +:+ Str.dquote +:+ filename +:+
                          Str.dquote +:+ " uploaded successfully"));
                   ("document_id", JStr filename)] |},
             {| loaded_documents :=
                  Dict.set filename doc_text (loaded_documents st);
                disk := fs |})
        end
  end.

(** *** [chat] (lines 124-173) *)

Definition json_type_name (v : json) : string :=
  match v with
  | JNull => "NoneType"
  | JBool _ => "bool"
  | JNum _ => "int"
  | JStr _ => "str"
  | JArr _ => "list"
  | JObj _ => "dict"
  end.

(** Whether [hash(v)] is defined: a list or a dict has none. *)
Definition hashable (v : json) : bool :=
  match v with
  | JArr _ | JObj _ => false
  | JNull | JBool _ | JNum _ | JStr _ => true
  end.

(** [document_id in loaded_documents]: the key is hashed, then looked up
    among keys that are all [str]. *)
Definition key_in_documents (document_id : json)
    (docs : list (string * string)) : result bool :=
  if hashable document_id then
    Ok (match document_id with
        | JStr k => Dict.mem k docs
        | _ => false
        end)
  else
    Raise ("unhashable type: '" +:+ json_type_name document_id +:+ "'").

(** Lines 138-145: the document text that goes with the question;
    [Ok None] is the [else] branch, which answers 400.  The [KeyError] of
    line 140 and the [IndexError] of line 143 are written out, though the
    tests before them exclude both. *)
Definition select_context (document_id : json)
    (docs : list (string * string)) : result (option string) :=
  found ← (if json_truthy document_id
           then key_in_documents document_id docs else Ok false) ;;;
  if (found : bool) then
    match document_id with
    | JStr k =>
        match Dict.get k docs with
        | Some doc_text => Ok (Some doc_text)
        | None => Raise k
        end
    | _ => Raise (py_format document_id)
    end
  else if Dict.truthy docs then
    match Dict.values docs !! 0 with
    | Some doc_text => Ok (Some doc_text)
    | None => Raise "list index out of range"
    end
  else Ok None.

(** [f"{v}"] *)
Definition format_value (v : json) : string :=
  match v with
  | JStr s => s
  | _ => py_format v
  end.

(** Lines 149-161: the arguments of [client.chat.completions.create]. *)
Definition completion_call (doc_text : string) (user_message : json)
  : completion_request :=
  {| model := "gpt-4o-mini";
     messages :=
       [ {| role := "system";
            content := "You are a helpful assistant that answers questions about the provided document. Answer based only on the document content." |};
         {| role := "user";
            content := "Document content:" +:+ Str.newline +:+ doc_text +:+
                       Str.newline +:+ Str.newline +:+ "User question: " +:+
                       format_value user_message |} ];
     temperature := QArith_base.Qmake 7 10;
     max_tokens := 1000 |}.

Definition chat_error (code : nat) (msg : string) : response :=
  {| status := code; body := JObj [("error", JStr msg)] |}.

(** Line 173: the handler of any exception raised in the [try] block. *)
Definition chat_failure (e : string) : response :=
  {| status := 500;
     body := JObj [("error", JStr e); ("success", JBool false)] |}.

(** The response, and the calls made to the remote service, in order. *)
Definition chat (api : completion_api) (req : chat_request)
    (docs : list (string * string)) : response * list completion_request :=
  match req with
  | Raise e => (chat_failure e, [])
  | Ok (JObj data) =>
      let user_message := Dict.get_default "message" (JStr "") data in
      let document_id := Dict.get_default "document_id" JNull data in
      if negb (json_truthy user_message) then
        (chat_error 400 "No message provided", [])
      else
        match select_context document_id docs with
        | Raise e => (chat_failure e, [])
        | Ok None =>
            (chat_error 400
               "No document loaded. Please upload a document first.", [])
        | Ok (Some doc_text) =>
            let call := completion_call doc_text user_message in
            match api call with
            | Raise e => (chat_failure e, [call])
            | Ok bot_reply =>
                ({| status := 200;
                    body := JObj [("success", JBool true);
                                  ("reply", from_option JStr JNull bot_reply);
                                  ("document_id", document_id)] |},
                 [call])
            end
        end
  | Ok data =>
      (chat_failure ("'" +:+ json_type_name data +:+
                     "' object has no attribute 'get'"), [])
  end.

(** A chat request in the form the interface gives it: a JSON object
    whose [document_id], when there is one, is no list and no object. *)
Definition chat_body_ok (req : chat_request) : bool :=
  match req with
  | Ok (JObj data) => hashable (Dict.get_default "document_id" JNull data)
  | _ => false
  end.

(** *** [list_documents] (lines 175-179) *)
Definition list_documents (docs : list (string * string)) : response :=
  {| status := 200;
     body := JObj [("documents", JArr (JStr <$> Dict.keys docs))] |}.

(** *** [clear_documents] (lines 181-185) *)
Definition clear_documents (st : server) : response * server :=
  ({| status := 200; body := JObj [("message", JStr "All documents cleared")] |},
   {| loaded_documents := Dict.clear (loaded_documents st);
      disk := disk st |}).

(** ** The server as a machine: one request at a time *)

Inductive request : Type :=
  | GetHealth
  | PostUpload (req : upload_request)
  | PostChat (api : completion_api) (req : chat_request)
  | GetDocuments
  | PostClear.

Definition handle (r : request) (st : server) : response * server :=
  match r with
  | GetHealth => (health, st)
  | PostUpload req => upload_document req st
  | PostChat api req => ((chat api req (loaded_documents st)).1, st)
  | GetDocuments => (list_documents (loaded_documents st), st)
  | PostClear => clear_documents st
  end.

Definition is_upload (r : request) : bool :=
  match r with PostUpload _ => true | _ => false end.

Definition is_clear (r : request) : bool :=
  match r with PostClear => true | _ => false end.

(** The state after serving [rs] in order. *)
Definition serve (rs : list request) (st : server) : server :=
  foldl (λ st r, (handle r st).2) st rs.

(** The server as it starts: nothing loaded (line 32). *)
Definition startup (fs : filesystem) : server :=
  {| loaded_documents := []; disk := fs |}.

(** The keys of the uploads that were answered 200 since the last clear,
    read off the requests and their responses. *)
Definition ingested_after (r : request) (resp : response) (K : gset string)
  : gset string :=
  match r with
  | PostUpload (Some file) =>
      if decide (status resp = 200)
      then {[ secure_filename (filename file) ]} ∪ K else K
  | PostClear => ∅
  | _ => K
  end.

Fixpoint ingested (rs : list request) (st : server) (K : gset string)
  : gset string :=
  match rs with
  | [] => K
  | r :: rs' =>
      let '(resp, st') := handle r st in
      ingested rs' st' (ingested_after r resp K)
  end.

(** The documents that [list_documents] names, in order, read off the
    requests and their responses: an upload answered 200 puts its key last
    unless the key is there already, a clear leaves none. *)
Definition listed_after (r : request) (resp : response) (L : list string)
  : list string :=
  match r with
  | PostUpload (Some file) =>
      let key := secure_filename (filename file) in
      if decide (status resp = 200)
      then (if bool_decide (key ∈ L) then L else L ++ [key]) else L
  | PostClear => []
  | _ => L
  end.

Fixpoint listed (rs : list request) (st : server) (L : list string)
  : list string :=
  match rs with
  | [] => L
  | r :: rs' =>
      let '(resp, st') := handle r st in
      listed rs' st' (listed_after r resp L)
  end.

End Handlers.

(** ** A stand-in for the libraries

    One instance of [External], to run the handlers on examples.  On the
    printable ASCII names used below [secure_filename] answers as werkzeug
    does on POSIX: path separators become blanks, blank-separated parts are
    joined with [_], characters outside [A-Za-z0-9_.-] are dropped, and
    leading and trailing dots and underscores are stripped.  The parsers
    accept a file by its magic number and take the rest as its text;
    [format] prints [None], the booleans and the integers as Python does
    and stands for the value otherwise. *)

Module Sample.

Definition safe_char (c : ascii) : bool :=
  let n := nat_of_ascii c in
  ((48 <=? n) && (n <=? 57)) || ((65 <=? n) && (n <=? 90)) ||
  ((97 <=? n) && (n <=? 122)) ||
  bool_decide (c = "_"%char) || bool_decide (c = "."%char) ||
  bool_decide (c = "-"%char).

Definition dot_or_underscore (c : ascii) : bool :=
  bool_decide (c = "."%char) || bool_decide (c = "_"%char).

Fixpoint split_blank (s cur : list ascii) : list (list ascii) :=
  match s with
  | [] => match cur with [] => [] | _ => [cur] end
  | c :: s' =>
      if Ascii.is_space c || bool_decide (c = "/"%char) then
        match cur with
        | [] => split_blank s' []
        | _ => cur :: split_blank s' []
        end
      else split_blank s' (cur ++ [c])
  end.

Fixpoint join_underscore (parts : list (list ascii)) : list ascii :=
  match parts with
  | [] => []
  | [p] => p
  | p :: parts' => p ++ "_"%char :: join_underscore parts'
  end.

Fixpoint lstrip (l : list ascii) : list ascii :=
  match l with
  | c :: l' => if dot_or_underscore c then lstrip l' else l
  | [] => []
  end.

Definition strip (l : list ascii) : list ascii :=
  reverse (lstrip (reverse (lstrip l))).

Definition secure (name : string) : string :=
  Str.of_chars
    (strip (filter (λ c, safe_char c = true)
              (join_underscore (split_blank (Str.chars name) [])))).

Definition text_of (content : bytes) : string :=
  String.string_of_list_byte content.

Definition docx (content : bytes) : result (list string) :=
  match content with
  | Byte.x50 :: Byte.x4b :: rest => Ok [text_of rest]
  | _ => Raise "File is not a zip file"
  end.

Definition pdf (content : bytes) : result (list (result string)) :=
  match content with
  | Byte.x25 :: Byte.x50 :: Byte.x44 :: Byte.x46 :: rest => Ok [Ok (text_of rest)]
  | _ => Raise "EOF marker not found"
  end.

Definition utf8 (content : bytes) : result string :=
  if forallb (λ b, Byte.to_nat b <? 128) content
  then Ok (text_of content)
  else Raise "'utf-8' codec can't decode byte: invalid start byte".

Definition format (v : json) : string :=
  match v with
  | JNull => "None"
  | JBool true => "True"
  | JBool false => "False"
  | JNum n => pretty n
  | JStr s => s
  | JArr _ => "[]"
  | JObj _ => "{}"
  end.

#[export] Instance libs : External := {|
  secure_filename := secure;
  docx_paragraphs := docx;
  pdf_pages := pdf;
  utf8_decode := utf8;
  py_format := format;
|}.

(** The remote service: it answers every call with the same reply. *)
Definition api : completion_api := λ _, Ok (Some "It is about tea.").

(** A remote service that is down. *)
Definition api_down : completion_api := λ _, Raise "Connection error.".

Definition file_of (s : string) : bytes := String.list_byte_of_string s.

(** A word-processing document and a file that is no PDF. *)
Definition report_docx : bytes := file_of "PKQuarterly report".
Definition broken_pdf : bytes := file_of "not a pdf at all".
Definition good_pdf : bytes := file_of "%PDFScanned pages".

End Sample.

(** A second stand-in, for a reader whose pages are given: [pages] is what
    [PdfReader] yields for every file, page by page. *)
Module Pages.

Definition libs (pages : list (result string)) : External := {|
  secure_filename := Sample.secure;
  docx_paragraphs := Sample.docx;
  pdf_pages := λ _, Ok pages;
  utf8_decode := Sample.utf8;
  py_format := Sample.format;
|}.

End Pages.

Example sample_secure_plain : Sample.secure "report.pdf" = "report.pdf".
Proof. reflexivity. Qed.

Example sample_secure_path : Sample.secure "../../etc/my report.PDF" = "etc_my_report.PDF".
Proof. reflexivity. Qed.

Example sample_secure_hidden : Sample.secure ".pdf" = "pdf".
Proof. reflexivity. Qed.

(** * Properties *)

(** ** Strings and paths *)

Section StrFacts.
Implicit Types s t suf : string.

Lemma chars_app s t : Str.chars (s +:+ t) = Str.chars s ++ Str.chars t.
Proof. induction s as [|c s IH]; simpl; [done | by rewrite IH]. Qed.

Lemma chars_lower s : Str.chars (Str.lower s) = Str.lower_char <$> Str.chars s.
Proof. induction s as [|c s IH]; simpl; [done | by rewrite IH]. Qed.

Lemma endswith_last s suf c :
  Str.endswith s suf = true → last (Str.chars suf) = Some c →
  last (Str.chars s) = Some c.
Proof.
  unfold Str.endswith. intros [k E]%bool_decide_eq_true Hc.
  by rewrite E, last_app, Hc.
Qed.

Lemma endswith_pdf_not_docx s :
  Str.endswith s ".pdf" = true → Str.endswith s ".docx" = false.
Proof.
  intros Hpdf. destruct (Str.endswith s ".docx") eqn:Hdocx; [|done].
  pose proof (endswith_last _ _ "f"%char Hpdf eq_refl) as Hf.
  pose proof (endswith_last _ _ "x"%char Hdocx eq_refl) as Hx.
  congruence.
Qed.

(** A name that ends in [.pdf] whatever the case ends in [f] or [F]. *)
Lemma endswith_lower_pdf_last s :
  Str.endswith (Str.lower s) ".pdf" = true →
  ∃ c, last (Str.chars s) = Some c ∧ Str.lower_char c = "f"%char.
Proof.
  intros Hpdf.
  pose proof (endswith_last _ _ "f"%char Hpdf eq_refl) as Hf.
  rewrite chars_lower, fmap_last in Hf.
  destruct (last (Str.chars s)) as [c|]; simplify_eq/=. eauto.
Qed.

Lemma os_path_join_last a b c :
  last (Str.chars b) = Some c → last (Str.chars (os_path_join a b)) = Some c.
Proof.
  intros Hc. unfold os_path_join.
  repeat case_match; rewrite ?chars_app, ?last_app, ?Hc; done.
Qed.

(** The uploaded PDF and the word-processing file of the same stem are
    two different paths: saving the one leaves the other as it was. *)
Lemma pdf_path_not_docx_path folder name :
  Str.endswith (Str.lower name) ".pdf" = true →
  os_path_join folder name ≠
  os_path_join folder (Str.drop_last 4 name +:+ ".docx").
Proof.
  intros (c & Hc & Hlow)%endswith_lower_pdf_last E.
  apply (os_path_join_last folder) in Hc.
  assert (last (Str.chars (os_path_join folder
            (Str.drop_last 4 name +:+ ".docx"))) = Some "x"%char) as Hx.
  { apply os_path_join_last. by rewrite chars_app, last_app. }
  rewrite <- E, Hc in Hx. by simplify_eq.
Qed.
End StrFacts.

(** ** Dictionaries *)

Section DictFacts.
Context {V : Type}.
Implicit Types (d : list (string * V)) (k : string) (v : V).

Lemma dict_get_set_eq k v d : Dict.get k (Dict.set k v d) = Some v.
Proof.
  induction d as [|[k' v'] d IH]; simpl; repeat case_decide; simpl;
    repeat case_decide; done.
Qed.


Lemma dict_get_None k d : Dict.get k d = None ↔ k ∉ Dict.keys d.
Proof.
  unfold Dict.keys. induction d as [|[k' v'] d IH]; simpl.
  - split; [intros _; apply not_elem_of_nil | done].
  - case_decide; subst; rewrite ?not_elem_of_cons; split; try done.
    + intros []; done.
    + intros Hd. split; [done | by apply IH].
    + intros [_ Hd]. by apply IH.
Qed.

Lemma dict_mem_true k d : Dict.mem k d = true ↔ k ∈ Dict.keys d.
Proof.
  unfold Dict.mem. rewrite bool_decide_eq_true.
  destruct (Dict.get k d) eqn:E.
  - split; [intros _ | eauto].
    destruct (decide (k ∈ Dict.keys d)) as [|Hn]; [done|].
    apply dict_get_None in Hn. congruence.
  - split; [by intros [? ?] | intros Hin].
    apply dict_get_None in E. done.
Qed.

(** An assignment adds its key to the key set and changes nothing else
    of it. *)
Lemma dict_keys_set k v d :
  (list_to_set (Dict.keys (Dict.set k v d)) : gset string) =
  {[ k ]} ∪ list_to_set (Dict.keys d).
Proof.
  unfold Dict.keys. induction d as [|[k' v'] d IH]; [done|].
  cbn [Dict.set]. case_decide; subst.
  - rewrite !fmap_cons, !list_to_set_cons. set_solver.
  - rewrite !fmap_cons, !list_to_set_cons, IH. set_solver.
Qed.

(** The first entry keeps its place under later assignments: the first
    key of a dictionary is the one that was inserted first. *)
Lemma dict_set_first_key k v d k0 v0 :
  (Dict.keys (Dict.set k v ((k0, v0) :: d))) !! 0 = Some k0.
Proof. simpl. by case_decide; subst. Qed.

Lemma dict_set_no_duplicates k v d :
  NoDup (Dict.keys d) → NoDup (Dict.keys (Dict.set k v d)).
Proof.
  unfold Dict.keys. induction d as [|[k' v'] d IH]; simpl; intros Hd.
  - apply NoDup_singleton.
  - apply NoDup_cons in Hd as [Hk Hd]. case_decide; subst; simpl.
    + by apply NoDup_cons.
    + apply NoDup_cons. split; [|by apply IH].
      intros Hin. apply Hk.
      assert (k' ∈ (list_to_set (Dict.keys (Dict.set k v d)) : gset string))
        as Hs by (by apply elem_of_list_to_set).
      rewrite dict_keys_set in Hs. apply elem_of_union in Hs as [Hs|Hs].
      * apply elem_of_singleton in Hs. congruence.
      * by apply elem_of_list_to_set in Hs.
Qed.
End DictFacts.

(** ** [allowed_file] and the extension *)

Section AllowedFacts.

Lemma contains_rpartition c s :
  Str.contains c s = true ↔ is_Some (Str.rpartition c s).
Proof.
  induction s as [|a s IH]; simpl.
  - split; [done | by intros [? ?]].
  - destruct (Str.rpartition c s) as [[h t]|] eqn:E.
    + case_decide; [by eauto|]. rewrite IH. by eauto.
    + case_decide; [by eauto|]. rewrite IH. split; by intros [? ?].
Qed.

(** [allowed_file] accepts a name exactly when it has an extension that
    is, in lower case, one of the three allowed. *)
Lemma allowed_file_extension name :
  allowed_file name = true ↔
  ∃ ext, extension name = Some ext ∧ Str.lower ext ∈ ALLOWED_EXTENSIONS.
Proof.
  unfold allowed_file, extension, Str.rsplit1.
  destruct (Str.rpartition "." name) as [[h t]|] eqn:E; simpl.
  - rewrite andb_true_iff, bool_decide_eq_true, contains_rpartition, E.
    split; [intros [_ ?]; eauto | intros (? & ? & ?); simplify_eq; eauto].
  - rewrite andb_true_iff, contains_rpartition, E.
    split; [by intros [[? ?] _] | by intros (? & ? & _)].
Qed.

Lemma allowed_file_false name :
  (∀ ext, extension name = Some ext → Str.lower ext ∉ ALLOWED_EXTENSIONS) →
  allowed_file name = false.
Proof.
  intros Hext. destruct (allowed_file name) eqn:E; [|done].
  apply allowed_file_extension in E as (ext & He & Hin).
  by destruct (Hext ext He).
Qed.
End AllowedFacts.

(** ** Uploads *)

Section UploadFacts.
Context `{ext : External}.

Lemma read_bytes_insert_ne fs p q n :
  p ≠ q → read_bytes (<[p := n]> fs) q = read_bytes fs q.
Proof. intros Hne. unfold read_bytes. by rewrite lookup_insert_ne. Qed.

Lemma os_path_exists_insert_ne fs p q n :
  p ≠ q → os_path_exists (<[p := n]> fs) q = os_path_exists fs q.
Proof. intros Hne. unfold os_path_exists. by rewrite lookup_insert_ne. Qed.

(** The extractors read one file: they see nothing of the others. *)
Lemma extract_text_from_docx_insert_ne fs p q n :
  p ≠ q →
  extract_text_from_docx (<[p := n]> fs) q = extract_text_from_docx fs q.
Proof.
  intros Hne. unfold extract_text_from_docx, docx_text.
  by rewrite read_bytes_insert_ne.
Qed.

Lemma file_save_Ok fs p content fs' :
  file_save fs p content = Ok fs' → fs' = <[p := File content]> fs.
Proof. unfold file_save. repeat case_match; congruence. Qed.

(** An upload that passes the three checks and whose file is saved. *)
Lemma upload_document_saved file st fs' :
  filename file ≠ "" →
  allowed_file (filename file) = true →
  file_save (disk st)
    (os_path_join UPLOAD_FOLDER (secure_filename (filename file)))
    (stream file) = Ok fs' →
  let name := secure_filename (filename file) in
  let doc_text := upload_text fs' name (os_path_join UPLOAD_FOLDER name) in
  status (upload_document (Some file) st).1 = 200 ∧
  (upload_document (Some file) st).2 =
    {| loaded_documents := Dict.set name doc_text (loaded_documents st);
       disk := fs' |}.
Proof.
  intros Hname Hallowed Hsave. unfold upload_document.
  rewrite decide_False by done. rewrite Hallowed. simpl. by rewrite Hsave.
Qed.
(** Lines 99-106 for a name that ends in [.pdf], just after the upload was
    saved: the test for the word-processing file sees the directory as it
    was before, since the two paths differ. *)
Lemma upload_text_pdf fs name content :
  let file_path := os_path_join UPLOAD_FOLDER name in
  let docx_equiv :=
    os_path_join UPLOAD_FOLDER (Str.drop_last 4 name +:+ ".docx") in
  let saved := <[file_path := File content]> fs in
  Str.endswith (Str.lower name) ".pdf" = true →
  upload_text saved name file_path =
    if os_path_exists fs docx_equiv
    then extract_text_from_docx fs docx_equiv
    else extract_text_from_pdf saved file_path.
Proof.
  intros file_path docx_equiv saved Hpdf.
  pose proof (pdf_path_not_docx_path UPLOAD_FOLDER name Hpdf) as Hne.
  fold file_path docx_equiv in Hne.
  unfold upload_text. rewrite (endswith_pdf_not_docx _ Hpdf), Hpdf.
  fold docx_equiv. subst saved.
  rewrite os_path_exists_insert_ne by done.
  destruct (os_path_exists fs docx_equiv); [|done].
  by rewrite extract_text_from_docx_insert_ne.
Qed.
End UploadFacts.

(** C1.  An upload that the handler accepts and saves, and whose sanitized
    name ends in [.pdf] in any case: if a file of the same stem with the
    extension [.docx] exists in the upload directory, the text stored under
    the PDF's key is the text extracted from that file, as it was before the
    upload; if there is none, it is the text extracted from the saved PDF,
    which holds the uploaded bytes. *)
Theorem upload_pdf_prefers_existing_docx `{ext : External}
    (file : file_storage) (st : server) (fs' : filesystem) :
  let name := secure_filename (filename file) in
  let file_path := os_path_join UPLOAD_FOLDER name in
  let docx_equiv :=
    os_path_join UPLOAD_FOLDER (Str.drop_last 4 name +:+ ".docx") in
  filename file ≠ "" →
  allowed_file (filename file) = true →
  Str.endswith (Str.lower name) ".pdf" = true →
  file_save (disk st) file_path (stream file) = Ok fs' →
  let st' := (upload_document (Some file) st).2 in
  status (upload_document (Some file) st).1 = 200 ∧
  disk st' !! file_path = Some (File (stream file)) ∧
  (os_path_exists (disk st) docx_equiv = true →
   Dict.get name (loaded_documents st') =
     Some (extract_text_from_docx (disk st) docx_equiv)) ∧
  (os_path_exists (disk st) docx_equiv = false →
   Dict.get name (loaded_documents st') =
     Some (extract_text_from_pdf (disk st') file_path)).
Proof.
  intros name file_path docx_equiv Hname Hallowed Hpdf Hsave st'.
  destruct (upload_document_saved file st fs' Hname Hallowed Hsave)
    as [Hstatus Hst].
  subst st'. rewrite Hst. simpl. fold name file_path.
  apply file_save_Ok in Hsave as ->.
  split; [done|]. split; [by rewrite lookup_insert_eq|].
  rewrite dict_get_set_eq.
  rewrite (upload_text_pdf (disk st) name (stream file) Hpdf).
  fold file_path docx_equiv. split; by intros ->.
Qed.

(** C1, on an example: [report.pdf] uploaded after [report.docx]. *)
Lemma upload_pdf_prefers_existing_docx_witness :
  let st := {| loaded_documents := [("report.docx", "Quarterly report")];
               disk := {[ "uploads/report.docx" := File Sample.report_docx ]} |} in
  let st' := (upload_document (ext := Sample.libs)
                (Some {| filename := "report.pdf"; stream := Sample.good_pdf |})
                st).2 in
  Dict.get "report.pdf" (loaded_documents st') = Some "Quarterly report".
Proof.
  intros st st'.
  pose proof (upload_pdf_prefers_existing_docx (ext := Sample.libs)
    {| filename := "report.pdf"; stream := Sample.good_pdf |} st
    (<["uploads/report.pdf" := File Sample.good_pdf]> (disk st))
    ltac:(done) eq_refl eq_refl eq_refl) as (_ & _ & Hdocx & _).
  exact (Hdocx eq_refl).
Defined.

(** C6.  An upload whose file name has no extension among [docx], [txt] and
    [pdf], compared in lower case, is answered 400, and neither the
    documents nor the disk change. *)
Theorem upload_rejects_other_extensions `{ext : External}
    (file : file_storage) (st : server) :
  (∀ ext, extension (filename file) = Some ext →
          Str.lower ext ∉ ALLOWED_EXTENSIONS) →
  status (upload_document (Some file) st).1 = 400 ∧
  (upload_document (Some file) st).2 = st.
Proof.
  intros Hext%allowed_file_false. unfold upload_document.
  case_decide; [done|]. by rewrite Hext.
Qed.

Lemma upload_rejects_other_extensions_witness :
  let st := {| loaded_documents := [("notes.txt", "tea")]; disk := ∅ |} in
  let req := Some {| filename := "setup.EXE"; stream := [] |} in
  status (upload_document (ext := Sample.libs) req st).1 = 400 ∧
  (upload_document (ext := Sample.libs) req st).2 = st.
Proof.
  intros st req.
  apply (upload_rejects_other_extensions (ext := Sample.libs)
           {| filename := "setup.EXE"; stream := [] |} st).
  intros ext [= <-]. vm_compute. intros Hin. discriminate Hin.
Defined.

(** ** Extraction failures *)

Section ExtractFacts.
Context `{ext : External}.

Lemma startswith_app prefix rest :
  Str.startswith (prefix +:+ rest) prefix = true.
Proof.
  unfold Str.startswith. apply bool_decide_eq_true.
  rewrite chars_app. by apply prefix_app_r.
Qed.

Lemma try_except_Raise body prefix msg :
  body = Raise msg →
  try_except body prefix = prefix +:+ msg ∧
  Str.startswith (try_except body prefix) prefix = true.
Proof. intros ->. simpl. split; [done | apply startswith_app]. Qed.

(** The page loop stops at the first page whose text cannot be read, and
    only there. *)
Lemma pdf_loop_Raise todo pages msg :
  pdf_loop todo pages = Raise msg ↔
  ∃ i, todo !! i = Some (Raise msg) ∧
       ∀ j, j < i → ∃ txt, todo !! j = Some (Ok txt).
Proof.
  revert pages. induction todo as [|page todo IH]; intros pages; simpl.
  - split; [done | by intros (i & ? & _)].
  - destruct page as [txt|e]; simpl.
    + rewrite IH. split.
      * intros (i & Hi & Hlt). exists (S i). split; [done|].
        intros [|j] Hj; simpl; [by eauto | apply Hlt; lia].
      * intros ([|i] & Hi & Hlt); [done|]. exists i. split; [done|].
        intros j Hj. apply (Hlt (S j)). lia.
    + split.
      * intros [= ->]. exists 0. split; [done | intros j Hj; lia].
      * intros ([|i] & Hi & Hlt); [by simplify_eq/=|].
        destruct (Hlt 0) as [txt Htxt]; [lia | done].
Qed.

(** A page without text adds nothing to the pages that are joined. *)
Lemma pdf_loop_skips_empty todo pages :
  pdf_loop (Ok "" :: todo) pages = pdf_loop todo pages.
Proof. done. Qed.
End ExtractFacts.

(** C2, as the code has it.  No extractor raises: when reading or parsing
    fails with a message, the extractor returns the fixed prefix followed by
    that message, [Error reading document: ] for a text or word-processing
    file and [Error reading PDF: ] for a PDF.  An upload that the handler
    accepts and saves under a name ending in [.pdf], with no [.docx] file of
    the same stem in the upload directory, and whose extraction fails, is
    answered 200, and the text stored under its key is [Error reading PDF: ]
    and the message. *)
Theorem extraction_failure_is_stored_as_text `{ext : External}
    (file : file_storage) (st : server) (fs' : filesystem)
    (path msg : string) :
  let name := secure_filename (filename file) in
  let file_path := os_path_join UPLOAD_FOLDER name in
  let docx_equiv :=
    os_path_join UPLOAD_FOLDER (Str.drop_last 4 name +:+ ".docx") in
  (docx_text fs' path = Raise msg →
   extract_text_from_docx fs' path = "Error reading document: " +:+ msg) ∧
  (txt_text fs' path = Raise msg →
   extract_text_from_txt fs' path = "Error reading document: " +:+ msg) ∧
  (pdf_text fs' path = Raise msg →
   extract_text_from_pdf fs' path = "Error reading PDF: " +:+ msg) ∧
  (filename file ≠ "" →
   allowed_file (filename file) = true →
   Str.endswith (Str.lower name) ".pdf" = true →
   file_save (disk st) file_path (stream file) = Ok fs' →
   os_path_exists (disk st) docx_equiv = false →
   pdf_text fs' file_path = Raise msg →
   let outcome := upload_document (Some file) st in
   status outcome.1 = 200 ∧
   Dict.get name (loaded_documents outcome.2) =
     Some ("Error reading PDF: " +:+ msg) ∧
   Str.startswith ("Error reading PDF: " +:+ msg) "Error reading PDF:" = true).
Proof.
  intros name file_path docx_equiv.
  split; [|split; [|split]].
  - intros E. unfold extract_text_from_docx. by apply try_except_Raise.
  - intros E. unfold extract_text_from_txt. by apply try_except_Raise.
  - intros E. unfold extract_text_from_pdf. by apply try_except_Raise.
  - intros Hname Hallowed Hpdf Hsave Hnone Hfail outcome.
    destruct (upload_document_saved file st fs' Hname Hallowed Hsave)
      as [Hstatus Hst].
    subst outcome. rewrite Hst. simpl. fold name file_path.
    split; [done|]. split.
    + rewrite dict_get_set_eq. f_equal.
      pose proof (file_save_Ok _ _ _ _ Hsave) as Hfs. rewrite Hfs.
      rewrite (upload_text_pdf (disk st) name (stream file) Hpdf).
      fold file_path docx_equiv. rewrite Hnone, <- Hfs.
      unfold extract_text_from_pdf. by rewrite Hfail.
    + apply (startswith_app "Error reading PDF:" (" " +:+ msg)).
Qed.

(** C2, on an example: a file that is no PDF, uploaded as [scan.pdf]. *)
Lemma extraction_failure_is_stored_as_text_witness :
  let outcome :=
    upload_document (ext := Sample.libs)
      (Some {| filename := "scan.pdf"; stream := Sample.broken_pdf |})
      {| loaded_documents := []; disk := ∅ |} in
  status outcome.1 = 200 ∧
  Dict.get "scan.pdf" (loaded_documents outcome.2) =
    Some "Error reading PDF: EOF marker not found".
Proof.
  intros outcome.
  pose proof (extraction_failure_is_stored_as_text (ext := Sample.libs)
    {| filename := "scan.pdf"; stream := Sample.broken_pdf |}
    {| loaded_documents := []; disk := ∅ |}
    {[ "uploads/scan.pdf" := File Sample.broken_pdf ]}
    "uploads/scan.pdf" "EOF marker not found") as (_ & _ & _ & Hupload).
  destruct (Hupload ltac:(done) eq_refl eq_refl eq_refl eq_refl eq_refl)
    as (Hstatus & Htext & _).
  split; [exact Hstatus | exact Htext].
Defined.

(** C2 as it is stated fails where the precedence rule applies: a file that
    is no PDF is uploaded as [report.pdf] while [report.docx] is in the
    upload directory.  The upload is answered 200 and the text stored under
    [report.pdf] is the text of the word-processing file, which begins with
    neither error prefix. *)
Lemma corrupted_pdf_beside_docx_stores_docx_text :
  let st := {| loaded_documents := [("report.docx", "Quarterly report")];
               disk := {[ "uploads/report.docx" := File Sample.report_docx ]} |} in
  let outcome :=
    upload_document (ext := Sample.libs)
      (Some {| filename := "report.pdf"; stream := Sample.broken_pdf |}) st in
  pdf_pages (External := Sample.libs) Sample.broken_pdf =
    Raise "EOF marker not found" ∧
  status outcome.1 = 200 ∧
  Dict.get "report.pdf" (loaded_documents outcome.2) = Some "Quarterly report" ∧
  Str.startswith "Quarterly report" "Error reading PDF:" = false ∧
  Str.startswith "Quarterly report" "Error reading document:" = false.
Proof. repeat split; reflexivity. Qed.

(** ** Chat *)

Section ChatFacts.
Context `{ext : External}.
Implicit Types (docs : list (string * string)) (data : list (string * json)).

(** With nothing loaded the selector finds no text, whatever the id. *)
Lemma select_context_nothing_loaded document_id :
  select_context document_id [] =
    (if json_truthy document_id && negb (hashable document_id)
     then Raise ("unhashable type: '" +:+ json_type_name document_id +:+ "'")
     else Ok None).
Proof.
  unfold select_context, key_in_documents.
  destruct document_id as [|b|n|s|l|f]; simpl; try done.
  - by destruct b.
  - by destruct (negb (n =? 0)%Z).
  - by destruct (Str.truthy s).
  - by destruct l.
  - by destruct f.
Qed.

(** The second branch of the selector: the id is null, or a string that
    is no key, and something is loaded. *)
Lemma select_context_first document_id k0 text0 docs :
  document_id = JNull ∨
    (∃ k, document_id = JStr k ∧ k ∉ Dict.keys ((k0, text0) :: docs)) →
  select_context document_id ((k0, text0) :: docs) = Ok (Some text0).
Proof.
  intros [-> | (k & -> & Hk)]; [done|].
  unfold select_context, key_in_documents. simpl json_truthy.
  destruct (Str.truthy k); [|done]. simpl hashable. cbn iota.
  destruct (Dict.mem k ((k0, text0) :: docs)) eqn:E; [|done].
  by apply dict_mem_true in E.
Qed.

(** Every call that [chat] makes is the one of lines 148-162, and it
    makes at most one. *)
Lemma chat_calls api req docs :
  (chat api req docs).2 = [] ∨
  ∃ doc_text data,
    req = Ok (JObj data) ∧
    json_truthy (Dict.get_default "message" (JStr "") data) = true ∧
    select_context (Dict.get_default "document_id" JNull data) docs =
      Ok (Some doc_text) ∧
    (chat api req docs).2 =
      [completion_call doc_text (Dict.get_default "message" (JStr "") data)].
Proof.
  destruct req as [[| | | | |data]|e]; simpl; try (by left).
  destruct (json_truthy (Dict.get_default "message" (JStr "") data)) eqn:Hm;
    simpl; [|by left].
  destruct (select_context _ docs) as [[doc_text|]|e] eqn:Hs;
    simpl; try (by left).
  right. exists doc_text, data. split_and!; [done..|].
  by destruct (api _).
Qed.

(** [chat] answers 200 only after a call to the remote service. *)
Lemma chat_status api req docs :
  (chat api req docs).2 = [] →
  status (chat api req docs).1 = 400 ∨ status (chat api req docs).1 = 500.
Proof.
  destruct req as [[| | | | |data]|e]; simpl; try (by right).
  destruct (json_truthy _); simpl; [|by left].
  destruct (select_context _ docs) as [[doc_text|]|e];
    simpl; try (by right); try (by left).
  by destruct (api _).
Qed.

Lemma chat_nothing_loaded api req :
  (chat api req []).2 = [].
Proof.
  destruct (chat_calls api req []) as [E|(doc_text & data & _ & _ & Hs & _)];
    [done|].
  rewrite select_context_nothing_loaded in Hs. by case_match.
Qed.

(** A request in the form of the interface, with nothing loaded. *)
Lemma chat_nothing_loaded_400 api req :
  chat_body_ok req = true → status (chat api req []).1 = 400.
Proof.
  destruct req as [[| | | | |data]|e]; simpl; try done.
  intros Hh. destruct (json_truthy _); simpl; [|done].
  by rewrite select_context_nothing_loaded, Hh, andb_false_r.
Qed.
End ChatFacts.

(** C3, as the code has it.  While nothing is loaded, no chat request
    reaches the remote service, and none is answered 200; a request whose
    message is not empty, and whose document id is absent, null or a string,
    is answered 400 with the error of a missing document. *)
Theorem chat_nothing_loaded_is_refused `{ext : External}
    (api : completion_api) (data : list (string * json)) :
  json_truthy (Dict.get_default "message" (JStr "") data) = true →
  hashable (Dict.get_default "document_id" JNull data) = true →
  chat api (Ok (JObj data)) [] =
    (chat_error 400 "No document loaded. Please upload a document first.", [])
  ∧ ∀ req, (chat api req []).2 = [] ∧
           (status (chat api req []).1 = 400 ∨ status (chat api req []).1 = 500).
Proof.
  intros Hm Hh. split.
  - simpl. rewrite Hm. simpl.
    by rewrite select_context_nothing_loaded, Hh, andb_false_r.
  - intros req. pose proof (chat_nothing_loaded api req) as Hcalls.
    split; [done | by apply chat_status].
Qed.

Lemma chat_nothing_loaded_is_refused_witness :
  chat (ext := Sample.libs) Sample.api
    (Ok (JObj [("message", JStr "What is it about?")])) [] =
    (chat_error 400 "No document loaded. Please upload a document first.", []).
Proof.
  exact (proj1 (chat_nothing_loaded_is_refused (ext := Sample.libs) Sample.api
                  [("message", JStr "What is it about?")] eq_refl eq_refl)).
Defined.

(** C3 as it is stated fails for a request without a message: with nothing
    loaded it is answered 400 as well, but with the error of the missing
    message, which line 134 checks before the documents are looked at. *)
Lemma chat_nothing_loaded_empty_message :
  chat (ext := Sample.libs) Sample.api (Ok (JObj [("message", JStr "")])) [] =
    (chat_error 400 "No message provided", []) ∧
  chat_error 400 "No message provided" ≠
    chat_error 400 "No document loaded. Please upload a document first.".
Proof. split; [reflexivity | discriminate]. Qed.

(** With nothing loaded, a document id that is a list makes the membership
    test of line 139 raise: the request is answered 500. *)
Example chat_nothing_loaded_list_id :
  chat (ext := Sample.libs) Sample.api
    (Ok (JObj [("message", JStr "hi"); ("document_id", JArr [JStr "a.txt"])]))
    [] = (chat_failure "unhashable type: 'list'", []).
Proof. reflexivity. Qed.

(** C10.  A chat request whose message is the empty string is answered as
    one that has no message: 400 with the error of the missing message,
    whatever the documents loaded, and without a call to the remote
    service. *)
Theorem chat_empty_message_is_missing_message `{ext : External}
    (api api' : completion_api) (data data' : list (string * json))
    (docs docs' : list (string * string)) :
  Dict.get "message" data = Some (JStr "") →
  Dict.get "message" data' = None →
  chat api (Ok (JObj data)) docs = (chat_error 400 "No message provided", []) ∧
  chat api (Ok (JObj data)) docs = chat api' (Ok (JObj data')) docs'.
Proof.
  intros Hempty Hmissing. simpl. unfold Dict.get_default.
  by rewrite Hempty, Hmissing.
Qed.

Lemma chat_empty_message_is_missing_message_witness :
  chat (ext := Sample.libs) Sample.api
    (Ok (JObj [("message", JStr ""); ("document_id", JStr "notes.txt")]))
    [("notes.txt", "tea")] =
  chat (ext := Sample.libs) Sample.api_down
    (Ok (JObj [("document_id", JStr "notes.txt")])) [].
Proof.
  exact (proj2 (chat_empty_message_is_missing_message (ext := Sample.libs)
                  Sample.api Sample.api_down
                  [("message", JStr ""); ("document_id", JStr "notes.txt")]
                  [("document_id", JStr "notes.txt")]
                  [("notes.txt", "tea")] [] eq_refl eq_refl)).
Defined.

(** C4.  When something is loaded and the requested document id is absent
    or null, or is a string that is no key of the store, the selector does
    not fail: it returns the text of the first entry of the store, and that
    text is what [chat] sends.  The first entry is the first in insertion
    order: a later assignment leaves it in first place. *)
Theorem chat_falls_back_to_first_document `{ext : External}
    (api : completion_api) (data : list (string * json))
    (k0 text0 : string) (docs : list (string * string)) :
  let user_message := Dict.get_default "message" (JStr "") data in
  let document_id := Dict.get_default "document_id" JNull data in
  let store := (k0, text0) :: docs in
  document_id = JNull ∨ (∃ k, document_id = JStr k ∧ k ∉ Dict.keys store) →
  select_context document_id store = Ok (Some text0) ∧
  (json_truthy user_message = true →
   (chat api (Ok (JObj data)) store).2 = [completion_call text0 user_message]) ∧
  (∀ k v, Dict.keys (Dict.set k v store) !! 0 = Some k0).
Proof.
  intros user_message document_id store Hid.
  pose proof (select_context_first document_id k0 text0 docs Hid) as Hs.
  split; [done|]. split; [|intros k v; apply dict_set_first_key].
  intros Hm. subst user_message document_id store.
  unfold chat. cbv beta iota zeta. rewrite Hm, Hs. cbn [negb].
  by destruct (api _).
Qed.

Lemma chat_falls_back_to_first_document_witness :
  (chat (ext := Sample.libs) Sample.api
     (Ok (JObj [("message", JStr "Which tea?"); ("document_id", JStr "gone.txt")]))
     [("notes.txt", "green tea"); ("report.pdf", "Quarterly report")]).2 =
  [completion_call (ext := Sample.libs) "green tea" (JStr "Which tea?")].
Proof.
  refine (proj1 (proj2 (chat_falls_back_to_first_document (ext := Sample.libs)
    Sample.api
    [("message", JStr "Which tea?"); ("document_id", JStr "gone.txt")]
    "notes.txt" "green tea" [("report.pdf", "Quarterly report")] _)) eq_refl).
  right. exists "gone.txt". split; [reflexivity|].
  apply dict_get_None. reflexivity.
Defined.

(** C5.  For a question that is a non-empty string and a context text that
    the selector resolved, [chat] makes exactly one call to the remote
    service: two turns, the fixed system instruction and a user turn that is
    [Document content:], a newline, the context text, two newlines,
    [User question: ] and the question; the model [gpt-4o-mini], the
    temperature 0.7 and at most 1000 tokens.  Whatever the request, any call
    that [chat] makes has two turns and these model, temperature and token
    cap. *)
Theorem chat_prompt_and_parameters `{ext : External}
    (api : completion_api) (data : list (string * json))
    (docs : list (string * string)) (question contextText : string) :
  Dict.get "message" data = Some (JStr question) →
  question ≠ "" →
  select_context (Dict.get_default "document_id" JNull data) docs =
    Ok (Some contextText) →
  (chat api (Ok (JObj data)) docs).2 =
    [ {| model := "gpt-4o-mini";
         messages :=
           [ {| role := "system";
                content := "You are a helpful assistant that answers questions about the provided document. Answer based only on the document content." |};
             {| role := "user";
                content := "Document content:" +:+ Str.newline +:+
                           contextText +:+ Str.newline +:+ Str.newline +:+
                           "User question: " +:+ question |} ];
         temperature := QArith_base.Qmake 7 10;
         max_tokens := 1000 |} ] ∧
  (∀ req docs' call,
     call ∈ (chat api req docs').2 →
     length (messages call) = 2 ∧ model call = "gpt-4o-mini" ∧
     temperature call = QArith_base.Qmake 7 10 ∧ max_tokens call = 1000%Z).
Proof.
  intros Hq Hne Hs. split.
  - assert (Dict.get_default "message" (JStr "") data = JStr question) as Hm
      by (unfold Dict.get_default; by rewrite Hq).
    unfold chat. cbv beta iota zeta. rewrite Hm, Hs.
    destruct question; [by destruct Hne|]. cbn [json_truthy Str.truthy negb].
    destruct (api _); reflexivity.
  - intros req docs' call Hin.
    destruct (chat_calls api req docs') as [E|(t & d & _ & _ & _ & E)];
      rewrite E in Hin.
    + by apply not_elem_of_nil in Hin.
    + apply list_elem_of_singleton in Hin as ->. done.
Qed.

Lemma chat_prompt_and_parameters_witness :
  (chat (ext := Sample.libs) Sample.api
     (Ok (JObj [("message", JStr "Which tea?"); ("model", JStr "gpt-5");
                ("temperature", JNum 0); ("document_id", JStr "notes.txt")]))
     [("report.pdf", "Quarterly report"); ("notes.txt", "green tea")]).2 =
  [ {| model := "gpt-4o-mini";
       messages :=
         [ {| role := "system";
              content := "You are a helpful assistant that answers questions about the provided document. Answer based only on the document content." |};
           {| role := "user";
              content := "Document content:" +:+ Str.newline +:+ "green tea" +:+
                         Str.newline +:+ Str.newline +:+
                         "User question: " +:+ "Which tea?" |} ];
       temperature := QArith_base.Qmake 7 10;
       max_tokens := 1000 |} ].
Proof.
  refine (proj1 (chat_prompt_and_parameters (ext := Sample.libs) Sample.api
    [("message", JStr "Which tea?"); ("model", JStr "gpt-5");
     ("temperature", JNum 0); ("document_id", JStr "notes.txt")]
    [("report.pdf", "Quarterly report"); ("notes.txt", "green tea")]
    "Which tea?" "green tea" eq_refl _ eq_refl)).
  discriminate.
Defined.

(** C9.  A chat request answered 200 gets back, as [document_id], the id it
    supplied, null when it supplied none.  When the selector fell back to
    the first loaded document, that id is not the key of the document used:
    it is null, or it is no key of the store at all.  (The keys of the store
    are sanitized file names, none of them empty.) *)
Theorem chat_echoes_supplied_id `{ext : External}
    (api : completion_api) (data : list (string * json))
    (docs : list (string * string)) :
  let supplied := Dict.get_default "document_id" JNull data in
  let outcome := chat api (Ok (JObj data)) docs in
  status outcome.1 = 200 →
  "" ∉ Dict.keys docs →
  json_field "document_id" (body outcome.1) = Some supplied ∧
  ((if json_truthy supplied then key_in_documents supplied docs else Ok false)
     = Ok false →
   (supplied = JNull ∨ ∀ k, supplied = JStr k → k ∉ Dict.keys docs) ∧
   (∀ k text, Dict.get k docs = Some text → supplied ≠ JStr k)).
Proof.
  intros supplied outcome Hok Hkeys. subst outcome. revert Hok.
  unfold chat. cbv beta iota zeta. fold supplied.
  destruct (negb _); [done|].
  destruct (select_context supplied docs) as [[doc_text|]|e]; try done.
  destruct (api _) as [reply|e]; [|done]. intros _. split; [done|].
  intros Hfall.
  assert (∀ k, supplied = JStr k → k ∉ Dict.keys docs) as Habsent.
  { intros k Hk. rewrite Hk in Hfall. simpl in Hfall.
    destruct k as [|c k]; [done|]. simpl in Hfall.
    unfold key_in_documents in Hfall. simpl in Hfall.
    intros Hin%dict_mem_true. congruence. }
  split; [by right|].
  intros k text Hget Hk. apply (Habsent k Hk).
  destruct (decide (k ∈ Dict.keys docs)) as [|Hn]; [done|].
  apply dict_get_None in Hn. congruence.
Qed.

Lemma chat_echoes_supplied_id_witness :
  json_field "document_id"
    (body (chat (ext := Sample.libs) Sample.api
             (Ok (JObj [("message", JStr "Which tea?");
                        ("document_id", JStr "gone.txt")]))
             [("notes.txt", "green tea")]).1) = Some (JStr "gone.txt").
Proof.
  refine (proj1 (chat_echoes_supplied_id (ext := Sample.libs) Sample.api
    [("message", JStr "Which tea?"); ("document_id", JStr "gone.txt")]
    [("notes.txt", "green tea")] eq_refl _)).
  apply dict_get_None. reflexivity.
Defined.

(** ** The store over a run of requests *)

Section ServeFacts.
Context `{ext : External}.

Lemma serve_cons r rs st : serve (r :: rs) st = serve rs (handle r st).2.
Proof. done. Qed.

(** Only an upload and a clear assign to [loaded_documents]. *)
Lemma handle_keeps_documents r st :
  is_upload r = false →
  loaded_documents (handle r st).2 =
    match r with PostClear => [] | _ => loaded_documents st end.
Proof. by destruct r. Qed.

Lemma serve_keeps_nothing_loaded rs st :
  forallb (λ r, negb (is_upload r)) rs = true →
  loaded_documents st = [] →
  loaded_documents (serve rs st) = [].
Proof.
  revert st. induction rs as [|r rs IH]; intros st Hrs Hst; [done|].
  simpl in Hrs. apply andb_true_iff in Hrs as [Hr Hrs].
  rewrite serve_cons. apply IH; [done|].
  rewrite handle_keeps_documents by by apply negb_true_iff.
  by destruct r.
Qed.

(** What an upload does to the store, by its status. *)
Lemma upload_document_store req st :
  let outcome := upload_document req st in
  (status outcome.1 = 200 ∧
   ∃ file doc_text, req = Some file ∧
     loaded_documents outcome.2 =
       Dict.set (secure_filename (filename file)) doc_text
         (loaded_documents st)) ∨
  (status outcome.1 ≠ 200 ∧ outcome.2 = st).
Proof.
  destruct req as [file|]; simpl; [|by right].
  case_decide; [by right|].
  destruct (allowed_file (filename file)); simpl; [|by right].
  destruct (file_save _ _ _) as [fs|e]; simpl; [|by right].
  left. split; [done|]. by eexists _, _.
Qed.

(** One request: the key set afterwards, from the key set before and
    the response. *)
Lemma handle_keys r st :
  (list_to_set (Dict.keys (loaded_documents (handle r st).2)) : gset string) =
  ingested_after r (handle r st).1
    (list_to_set (Dict.keys (loaded_documents st))).
Proof.
  destruct r as [|req|api req| |]; try done.
  cbn [handle ingested_after].
  destruct (upload_document_store req st)
    as [(Hok & file & doc_text & -> & Hdocs)|(Hno & Hst)].
  - rewrite decide_True by done. rewrite Hdocs. apply dict_keys_set.
  - rewrite Hst. destruct req as [file|]; [|done].
    by rewrite decide_False.
Qed.

(** The store never holds a key twice: [list_documents] names each
    document once. *)
Lemma serve_keys_no_duplicates rs st :
  NoDup (Dict.keys (loaded_documents st)) →
  NoDup (Dict.keys (loaded_documents (serve rs st))).
Proof.
  revert st. induction rs as [|r rs IH]; intros st Hst; [done|].
  rewrite serve_cons. apply IH.
  destruct r as [|req|api req| |]; try done; [|apply NoDup_nil_2].
  cbn [handle].
  destruct (upload_document_store req st)
    as [(_ & file & doc_text & _ & ->)|(_ & ->)]; [|done].
  by apply dict_set_no_duplicates.
Qed.

(** The document loaded first stays the first one until a clear. *)
Lemma serve_first_key rs st k0 :
  forallb (λ r, negb (is_clear r)) rs = true →
  Dict.keys (loaded_documents st) !! 0 = Some k0 →
  Dict.keys (loaded_documents (serve rs st)) !! 0 = Some k0.
Proof.
  revert st. induction rs as [|r rs IH]; intros st Hrs Hst; [done|].
  simpl in Hrs. apply andb_true_iff in Hrs as [Hr Hrs].
  rewrite serve_cons. apply IH; [done|].
  destruct r as [|req|api req| |]; try done. cbn [handle].
  destruct (upload_document_store req st)
    as [(_ & file & doc_text & _ & ->)|(_ & ->)]; [|done].
  destruct (loaded_documents st) as [|[k v] docs]; [done|].
  simpl in Hst. simplify_eq. apply dict_set_first_key.
Qed.

(** No key of the store is the empty string, as long as the sanitizer
    leaves something of every name that [allowed_file] accepts. *)
Lemma serve_keys_not_empty rs st :
  (∀ name, allowed_file name = true → secure_filename name ≠ "") →
  "" ∉ Dict.keys (loaded_documents st) →
  "" ∉ Dict.keys (loaded_documents (serve rs st)).
Proof.
  intros Hsecure. revert st. induction rs as [|r rs IH]; intros st Hst; [done|].
  rewrite serve_cons. apply IH.
  destruct r as [|req|api req| |]; try done; [|apply not_elem_of_nil].
  cbn [handle]. unfold upload_document.
  destruct req as [file|]; [|done]. case_decide; [done|].
  destruct (allowed_file (filename file)) eqn:Hallowed; [|done]. simpl.
  destruct (file_save _ _ _) as [fs|e]; [|done]. simpl.
  intros Hin.
  assert ("" ∈ (list_to_set (Dict.keys (Dict.set
            (secure_filename (filename file))
            (upload_text fs (secure_filename (filename file))
               (os_path_join UPLOAD_FOLDER (secure_filename (filename file))))
            (loaded_documents st))) : gset string)) as Hs
    by (by apply elem_of_list_to_set).
  rewrite dict_keys_set in Hs. apply elem_of_union in Hs as [Hs|Hs].
  - apply elem_of_singleton in Hs. by apply (Hsecure _ Hallowed).
  - by apply elem_of_list_to_set in Hs.
Qed.
End ServeFacts.

(** C7.  After a clear, and until the next upload, the list of documents
    is empty and a chat request is answered 400, without a call to the
    remote service. *)
Theorem clear_empties_store `{ext : External}
    (st : server) (rs : list request)
    (api : completion_api) (req : chat_request) :
  forallb (λ r, negb (is_upload r)) rs = true →
  chat_body_ok req = true →
  let cleared := (clear_documents st).2 in
  let later := serve rs cleared in
  status (clear_documents st).1 = 200 ∧
  loaded_documents cleared = [] ∧
  list_documents (loaded_documents later) =
    {| status := 200; body := JObj [("documents", JArr [])] |} ∧
  status (chat api req (loaded_documents later)).1 = 400 ∧
  (chat api req (loaded_documents later)).2 = [].
Proof.
  intros Hrs Hreq cleared later.
  assert (loaded_documents later = []) as ->
    by (by apply serve_keeps_nothing_loaded).
  split_and!; try done.
  - by apply chat_nothing_loaded_400.
  - apply chat_nothing_loaded.
Qed.

Lemma clear_empties_store_witness :
  let st := {| loaded_documents := [("notes.txt", "green tea")]; disk := ∅ |} in
  let later :=
    serve (ext := Sample.libs) [GetHealth; GetDocuments]
      (clear_documents st).2 in
  list_documents (loaded_documents later) =
    {| status := 200; body := JObj [("documents", JArr [])] |} ∧
  status (chat (ext := Sample.libs) Sample.api
            (Ok (JObj [("message", JStr "Which tea?");
                       ("document_id", JStr "notes.txt")]))
            (loaded_documents later)).1 = 400.
Proof.
  intros st later.
  pose proof (clear_empties_store (ext := Sample.libs) st
    [GetHealth; GetDocuments] Sample.api
    (Ok (JObj [("message", JStr "Which tea?");
               ("document_id", JStr "notes.txt")]))
    eq_refl eq_refl) as (_ & _ & Hlist & Hchat & _).
  split; [exact Hlist | exact Hchat].
Defined.

(** C8.  Every request keeps the invariant: the keys of the store are the
    sanitized names of the uploads answered 200 since the last clear.  An
    upload answered 200 adds its key, a clear leaves none, and every other
    request, and every upload that is refused or fails, leaves the keys as
    they were.  So the invariant holds after any run from the start. *)
Theorem store_keys_are_ingested_uploads `{ext : External}
    (rs : list request) (fs : filesystem) (r : request) (st : server) :
  (list_to_set (Dict.keys (loaded_documents (handle r st).2)) : gset string) =
    ingested_after r (handle r st).1
      (list_to_set (Dict.keys (loaded_documents st))) ∧
  (list_to_set (Dict.keys (loaded_documents (serve rs (startup fs))))
     : gset string) = ingested rs (startup fs) ∅.
Proof.
  split; [apply handle_keys|].
  enough (∀ st0 (K : gset string),
            list_to_set (Dict.keys (loaded_documents st0)) = K →
            list_to_set (Dict.keys (loaded_documents (serve rs st0))) =
              ingested rs st0 K) as Hrun by (by apply Hrun).
  induction rs as [|r' rs IH]; intros st0 K HK; [done|].
  rewrite serve_cons. cbn [ingested].
  pose proof (handle_keys r' st0) as Hstep.
  destruct (handle r' st0) as [resp st1]. apply IH.
  by rewrite <- HK.
Qed.

(** ** The handlers at work

    A run of the stand-in: a text file and a PDF are uploaded, an
    executable is refused, and a question without a document id gets the
    text of the file that came first. *)

Example run_upload_list_chat :
  let st :=
    serve (ext := Sample.libs)
      [ PostUpload (Some {| filename := "my notes.TXT";
                            stream := Sample.file_of "green tea" |});
        PostUpload (Some {| filename := "setup.exe"; stream := [] |});
        PostUpload (Some {| filename := "report.pdf";
                            stream := Sample.good_pdf |}) ]
      (startup ∅) in
  loaded_documents st =
    [("my_notes.TXT", "green tea"); ("report.pdf", "Scanned pages")] ∧
  body (list_documents (loaded_documents st)) =
    JObj [("documents", JArr [JStr "my_notes.TXT"; JStr "report.pdf"])] ∧
  chat (ext := Sample.libs) Sample.api
    (Ok (JObj [("message", JStr "Which tea?")])) (loaded_documents st) =
    ({| status := 200;
        body := JObj [("success", JBool true);
                      ("reply", JStr "It is about tea.");
                      ("document_id", JNull)] |},
     [completion_call (ext := Sample.libs) "green tea" (JStr "Which tea?")]).
Proof. repeat split; reflexivity. Qed.

(** A remote service that is down: the failure is answered 500, after the
    one call. *)
Example run_chat_upstream_failure :
  chat (ext := Sample.libs) Sample.api_down
    (Ok (JObj [("message", JStr "Which tea?")])) [("notes.txt", "green tea")] =
    (chat_failure "Connection error.",
     [completion_call (ext := Sample.libs) "green tea" (JStr "Which tea?")]).
Proof. reflexivity. Qed.

(** A name that is all extension: the sanitizer strips the dot, and the
    file is read as text, whatever it holds. *)
Example run_upload_hidden_pdf :
  (upload_document (ext := Sample.libs)
     (Some {| filename := ".pdf"; stream := Sample.file_of "plain words" |})
     (startup ∅)).2 =
  {| loaded_documents := [("pdf", "plain words")];
     disk := {[ "uploads/pdf" := File (Sample.file_of "plain words") ]} |}.
Proof. reflexivity. Qed.

(** * Further properties of the handlers *)

(** ** [allowed_file], by the shape of the name *)

Section AllowedShape.
Implicit Types s t name stem e : string.

Lemma lower_char_dot c : Str.lower_char c = "."%char ↔ c = "."%char.
Proof.
  destruct c as [[] [] [] [] [] [] [] []]; vm_compute; split; congruence.
Qed.

Lemma lower_char_idemp c : Str.lower_char (Str.lower_char c) = Str.lower_char c.
Proof. by destruct c as [[] [] [] [] [] [] [] []]. Qed.

Lemma lower_idemp s : Str.lower (Str.lower s) = Str.lower s.
Proof.
  induction s as [|c s IH]; [done|].
  cbn [Str.lower]. by rewrite lower_char_idemp, IH.
Qed.

Lemma contains_dot_lower s : Str.contains "." (Str.lower s) = Str.contains "." s.
Proof.
  induction s as [|c s IH]; [done|]. cbn [Str.lower Str.contains].
  rewrite IH. destruct (decide (c = "."%char)) as [->|Hc]; [done|].
  rewrite decide_False; [done|]. by rewrite lower_char_dot.
Qed.

Lemma rpartition_None c s :
  Str.rpartition c s = None ↔ Str.contains c s = false.
Proof.
  split; intros E.
  - destruct (Str.contains c s) eqn:Hc; [|done].
    apply contains_rpartition in Hc as [p Hp]. congruence.
  - destruct (Str.rpartition c s) as [p|] eqn:Hp; [|done].
    assert (Str.contains c s = true) as Hc
      by (apply contains_rpartition; by rewrite Hp).
    congruence.
Qed.

Lemma rpartition_lower s :
  Str.rpartition "." (Str.lower s) =
  (λ p, (Str.lower p.1, Str.lower p.2)) <$> Str.rpartition "." s.
Proof.
  induction s as [|c s IH]; [done|]. cbn [Str.lower Str.rpartition].
  rewrite IH. destruct (Str.rpartition "." s) as [[h t]|]; [done|]. simpl.
  destruct (decide (c = "."%char)) as [->|Hc]; [done|].
  rewrite decide_False; [done|]. by rewrite lower_char_dot.
Qed.

Lemma rpartition_app_dot stem e :
  Str.contains "." e = false →
  Str.rpartition "." (stem +:+ "." +:+ e) = Some (stem, e).
Proof.
  intros He%rpartition_None. induction stem as [|c stem IH].
  - change (Str.rpartition "." (String "." e) = Some (EmptyString, e)).
    cbn [Str.rpartition]. rewrite He. by rewrite decide_True.
  - change (Str.rpartition "." (String c (stem +:+ "." +:+ e)) =
            Some (String c stem, e)).
    cbn [Str.rpartition]. by rewrite IH.
Qed.

Lemma rpartition_Some c s h t :
  Str.rpartition c s = Some (h, t) →
  s = h +:+ String c t ∧ Str.contains c t = false.
Proof.
  revert h. induction s as [|a s IH]; intros h; [done|]. simpl.
  destruct (Str.rpartition c s) as [[h' t']|] eqn:E.
  - intros [= <- <-]. destruct (IH h' eq_refl) as [-> Ht]. by split.
  - case_decide; [|done]. intros [= <- <-]. subst a.
    split; [done | by apply rpartition_None].
Qed.

Lemma allowed_file_lower name : allowed_file (Str.lower name) = allowed_file name.
Proof.
  unfold allowed_file, Str.rsplit1.
  rewrite contains_dot_lower, rpartition_lower.
  destruct (Str.rpartition "." name) as [[h t]|]; simpl; [|done].
  by rewrite lower_idemp.
Qed.
End AllowedShape.

(** X1.  [allowed_file] accepts exactly the names of the form
    [stem.ext] where [ext] has no dot and is, in lower case, [docx], [txt]
    or [pdf]: only what follows the last dot counts, the stem may be empty
    or hold dots, and a name with no dot or with nothing after its last dot
    is refused. *)
Theorem allowed_file_shape (name : string) :
  allowed_file name = true ↔
  ∃ stem e, name = stem +:+ "." +:+ e ∧ Str.contains "." e = false ∧
            Str.lower e ∈ ALLOWED_EXTENSIONS.
Proof.
  rewrite allowed_file_extension. unfold extension. split.
  - intros (e & He & Hin).
    destruct (Str.rpartition "." name) as [[h t]|] eqn:E; [|done].
    simpl in He. injection He as <-.
    apply rpartition_Some in E as [-> Ht]. by exists h, t.
  - intros (stem & e & -> & He & Hin). exists e.
    by rewrite rpartition_app_dot.
Qed.

(** X2.  [allowed_file] does not look at the case of a name: two names
    that are equal in lower case are both accepted or both refused. *)
Theorem allowed_file_ignores_case (name1 name2 : string) :
  Str.lower name1 = Str.lower name2 →
  allowed_file name1 = allowed_file name2.
Proof.
  intros E. rewrite <- (allowed_file_lower name1), <- (allowed_file_lower name2).
  by rewrite E.
Qed.

Lemma allowed_file_ignores_case_witness :
  allowed_file "Annual Report.PdF" = allowed_file "ANNUAL report.pDf".
Proof. exact (allowed_file_ignores_case _ _ eq_refl). Defined.

(** ** The text of a PDF, page by page *)

Section PdfPages.
Context `{ext : External}.

Lemma truthy_nonempty (t : string) : Str.truthy t = true ↔ t ≠ "".
Proof. by destruct t. Qed.

Lemma pdf_loop_all_read (txts pages : list string) :
  pdf_loop (Ok <$> txts) pages = Ok (pages ++ filter (λ t, t ≠ "") txts).
Proof.
  revert pages. induction txts as [|t txts IH]; intros pages.
  - by rewrite filter_nil, app_nil_r.
  - cbn [fmap list_fmap pdf_loop rbind]. rewrite IH. destruct t as [|c t].
    + by rewrite filter_cons_False by (by intros []).
    + rewrite filter_cons_True by done. cbn [Str.truthy].
      by rewrite <- app_assoc.
Qed.
End PdfPages.

(** X3.  A PDF all of whose pages can be read: the extracted text is the
    texts of the pages in page order, joined by newlines, and a page without
    text contributes nothing, not even an empty line. *)
Theorem pdf_text_joins_pages_with_text `{ext : External}
    (fs : filesystem) (path : string) (content : bytes) (txts : list string) :
  fs !! path = Some (File content) →
  pdf_pages content = Ok (Ok <$> txts) →
  extract_text_from_pdf fs path =
    Str.join Str.newline (filter (λ t, t ≠ "") txts).
Proof.
  intros Hfile Hpages. unfold extract_text_from_pdf, pdf_text, read_bytes.
  rewrite Hfile. cbn [rbind]. rewrite Hpages. cbn [rbind].
  by rewrite pdf_loop_all_read.
Qed.

Lemma pdf_text_joins_pages_with_text_witness :
  extract_text_from_pdf (ext := Pages.libs [Ok "one"; Ok ""; Ok "three"])
    {[ "uploads/scan.pdf" := File Sample.good_pdf ]} "uploads/scan.pdf" =
  "one" +:+ Str.newline +:+ "three".
Proof.
  exact (pdf_text_joins_pages_with_text
           (ext := Pages.libs [Ok "one"; Ok ""; Ok "three"])
           {[ "uploads/scan.pdf" := File Sample.good_pdf ]} "uploads/scan.pdf"
           Sample.good_pdf ["one"; ""; "three"] eq_refl eq_refl).
Defined.

(** X4.  A PDF one of whose pages cannot be read: the extracted text is
    [Error reading PDF: ] and the message of the first such page; the text
    of the pages read before it is dropped, and the pages after it are not
    looked at. *)
Theorem pdf_text_first_unreadable_page `{ext : External}
    (fs : filesystem) (path : string) (content : bytes)
    (pages : list (result string)) (i : nat) (msg : string) :
  fs !! path = Some (File content) →
  pdf_pages content = Ok pages →
  pages !! i = Some (Raise msg) →
  (∀ j, j < i → ∃ txt, pages !! j = Some (Ok txt)) →
  extract_text_from_pdf fs path = "Error reading PDF: " +:+ msg.
Proof.
  intros Hfile Hpages Hi Hbefore.
  unfold extract_text_from_pdf, pdf_text, read_bytes.
  rewrite Hfile. cbn [rbind]. rewrite Hpages. cbn [rbind].
  assert (pdf_loop pages [] = Raise msg) as ->
    by (apply pdf_loop_Raise; eauto).
  done.
Qed.

Lemma pdf_text_first_unreadable_page_witness :
  extract_text_from_pdf
    (ext := Pages.libs [Ok "one"; Raise "bad xref"; Raise "bad stream"])
    {[ "uploads/scan.pdf" := File Sample.good_pdf ]} "uploads/scan.pdf" =
  "Error reading PDF: bad xref".
Proof.
  refine (pdf_text_first_unreadable_page
            (ext := Pages.libs [Ok "one"; Raise "bad xref"; Raise "bad stream"])
            {[ "uploads/scan.pdf" := File Sample.good_pdf ]} "uploads/scan.pdf"
            Sample.good_pdf [Ok "one"; Raise "bad xref"; Raise "bad stream"]
            1 "bad xref" eq_refl eq_refl eq_refl _).
  intros [|j] Hj; [by exists "one" | lia].
Defined.

(** ** What an upload leaves behind *)

Section UploadEffects.
Context `{ext : External}.

Lemma read_bytes_insert_eq fs p content :
  read_bytes (<[p := File content]> fs) p = Ok content.
Proof. unfold read_bytes. by rewrite lookup_insert_eq. Qed.

Lemma lower_app s t : Str.lower (s +:+ t) = Str.lower s +:+ Str.lower t.
Proof. induction s as [|c s IH]; [done|]. simpl. by rewrite IH. Qed.

Lemma endswith_app s suf : Str.endswith (s +:+ suf) suf = true.
Proof.
  unfold Str.endswith. apply bool_decide_eq_true.
  rewrite chars_app. by apply suffix_app_r.
Qed.

(** An upload answered 200, in full. *)
Lemma upload_document_200 file st :
  let name := secure_filename (filename file) in
  let file_path := os_path_join UPLOAD_FOLDER name in
  let saved := <[file_path := File (stream file)]> (disk st) in
  status (upload_document (Some file) st).1 = 200 →
  (upload_document (Some file) st).2 =
    {| loaded_documents :=
         Dict.set name (upload_text saved name file_path) (loaded_documents st);
       disk := saved |} ∧
  allowed_file (filename file) = true ∧
  disk st !! file_path ≠ Some Dir.
Proof.
  intros name file_path saved. unfold upload_document.
  case_decide; [done|].
  destruct (allowed_file (filename file)); [|done]. simpl.
  fold name file_path. unfold file_save.
  destruct (disk st !! file_path) as [[c|]|] eqn:E; simpl; try done.
Qed.

(** An upload that is not answered 200 changes nothing. *)
Lemma upload_document_not_200 req st :
  status (upload_document req st).1 ≠ 200 → (upload_document req st).2 = st.
Proof.
  intros Hno. by destruct (upload_document_store req st) as [[? _]|[_ ?]].
Qed.

Lemma dict_keys_set_list {V} k (v : V) d :
  Dict.keys (Dict.set k v d) =
    if bool_decide (k ∈ Dict.keys d) then Dict.keys d else Dict.keys d ++ [k].
Proof.
  unfold Dict.keys. induction d as [|[k' v'] d IH]; [done|].
  cbn [Dict.set]. destruct (decide (k = k')) as [<-|Hk].
  - rewrite !fmap_cons. cbn [fst]. rewrite bool_decide_eq_true_2; [done|].
    apply list_elem_of_here.
  - rewrite !fmap_cons, IH. cbn [fst].
    destruct (bool_decide (k ∈ d.*1)) eqn:Hin.
    + apply bool_decide_eq_true in Hin.
      rewrite bool_decide_eq_true_2; [done | by apply list_elem_of_further].
    + apply bool_decide_eq_false in Hin.
      rewrite bool_decide_eq_false_2; [done|].
      rewrite not_elem_of_cons. by split.
Qed.

(** A request that is no upload leaves the disk as it is. *)
Lemma handle_keeps_disk r st :
  is_upload r = false → disk (handle r st).2 = disk st.
Proof. by destruct r. Qed.

Lemma serve_keeps_disk rs st :
  forallb (λ r, negb (is_upload r)) rs = true →
  disk (serve rs st) = disk st.
Proof.
  revert st. induction rs as [|r rs IH]; intros st Hrs; [done|].
  simpl in Hrs. apply andb_true_iff in Hrs as [Hr Hrs].
  rewrite serve_cons, IH by done.
  apply handle_keeps_disk. by apply negb_true_iff.
Qed.

(** One request never takes a path away, and never turns a directory
    into a file. *)
Lemma handle_keeps_paths r st p :
  (is_Some (disk st !! p) → is_Some (disk (handle r st).2 !! p)) ∧
  (disk st !! p = Some Dir → disk (handle r st).2 !! p = Some Dir).
Proof.
  destruct r as [|req|api req| |]; try done. cbn [handle].
  destruct (decide (status (upload_document req st).1 = 200)) as [Hok|Hno];
    [|by rewrite upload_document_not_200].
  destruct req as [file|]; [|done].
  destruct (upload_document_200 file st Hok) as (-> & _ & Hdir). simpl.
  destruct (decide (os_path_join UPLOAD_FOLDER
                      (secure_filename (filename file)) = p)) as [<-|Hne].
  - rewrite lookup_insert_eq. split; [by eauto | done].
  - by rewrite lookup_insert_ne.
Qed.
End UploadEffects.



(** X6.  An upload answered 200 writes one file and no other: afterwards
    the path of the sanitized name under the upload folder holds the
    uploaded bytes, every other path is as before, and that path is
    [uploads/] and the name when the name does not begin with a slash.
    An upload answered anything else writes nothing and stores nothing. *)
Theorem upload_writes_one_file `{ext : External}
    (file : file_storage) (st : server) :
  let name := secure_filename (filename file) in
  let file_path := os_path_join UPLOAD_FOLDER name in
  let after := (upload_document (Some file) st).2 in
  (status (upload_document (Some file) st).1 = 200 →
   disk after !! file_path = Some (File (stream file)) ∧
   (∀ p, p ≠ file_path → disk after !! p = disk st !! p) ∧
   (Str.startswith name "/" = false → file_path = "uploads/" +:+ name)) ∧
  (status (upload_document (Some file) st).1 ≠ 200 → after = st).
Proof.
  intros name file_path after. split; [|apply upload_document_not_200].
  intros Hok. subst after.
  destruct (upload_document_200 file st Hok) as (-> & _ & _). simpl.
  fold name file_path. split_and!.
  - by rewrite lookup_insert_eq.
  - intros p Hp. by rewrite lookup_insert_ne.
  - intros Hslash. unfold file_path, os_path_join. by rewrite Hslash.
Qed.

Lemma upload_writes_one_file_witness :
  disk (upload_document (ext := Sample.libs)
          (Some {| filename := "../notes.txt"; stream := Sample.file_of "oolong" |})
          {| loaded_documents := [];
             disk := {[ "uploads/report.docx" := File Sample.report_docx ]} |}).2
    !! "uploads/notes.txt" = Some (File (Sample.file_of "oolong")).
Proof.
  exact (proj1 (proj1 (upload_writes_one_file (ext := Sample.libs)
           {| filename := "../notes.txt"; stream := Sample.file_of "oolong" |}
           {| loaded_documents := [];
              disk := {[ "uploads/report.docx" := File Sample.report_docx ]} |})
           eq_refl)).
Defined.



(** X8.  No request removes a file: a path that exists in the upload
    directory exists after any run of requests, clears included, and a
    directory stays a directory.  Clearing forgets the texts, not the
    files. *)
Theorem serve_never_removes_files `{ext : External}
    (rs : list request) (st : server) (p : string) :
  (os_path_exists (disk st) p = true →
   os_path_exists (disk (serve rs st)) p = true) ∧
  (disk st !! p = Some Dir → disk (serve rs st) !! p = Some Dir) ∧
  disk (clear_documents st).2 = disk st.
Proof.
  split_and!; [| |done].
  - unfold os_path_exists. rewrite !bool_decide_eq_true.
    revert st. induction rs as [|r rs IH]; intros st Hp; [done|].
    rewrite serve_cons. apply IH. by apply handle_keeps_paths.
  - revert st. induction rs as [|r rs IH]; intros st Hp; [done|].
    rewrite serve_cons. apply IH. by apply handle_keeps_paths.
Qed.

Lemma serve_never_removes_files_witness :
  os_path_exists
    (disk (serve (ext := Sample.libs)
             [ PostClear;
               PostUpload (Some {| filename := "notes.txt";
                                   stream := Sample.file_of "oolong" |});
               PostClear ]
             {| loaded_documents := [("report.docx", "Quarterly report")];
                disk := {[ "uploads/report.docx" := File Sample.report_docx ]} |}))
    "uploads/report.docx" = true.
Proof.
  exact (proj1 (serve_never_removes_files (ext := Sample.libs)
           [ PostClear;
             PostUpload (Some {| filename := "notes.txt";
                                 stream := Sample.file_of "oolong" |});
             PostClear ]
           {| loaded_documents := [("report.docx", "Quarterly report")];
              disk := {[ "uploads/report.docx" := File Sample.report_docx ]} |}
           "uploads/report.docx") eq_refl).
Defined.

(** X9.  A word-processing document is uploaded, then any requests that
    are no uploads are served, clears among them, then a PDF of the same
    stem is uploaded, both uploads answered 200: the text stored under the
    PDF's key is the text that the first upload stored under its own key,
    the text of the word-processing bytes.  A clear in between does not
    change this, since the file stays on disk. *)
Theorem pdf_after_docx_stores_docx_text `{ext : External}
    (docx_file pdf_file : file_storage) (rs : list request) (st : server) :
  let docx_name := secure_filename (filename docx_file) in
  let pdf_name := secure_filename (filename pdf_file) in
  let first := (upload_document (Some docx_file) st).2 in
  let later := serve rs first in
  let text :=
    try_except
      (paragraphs ← docx_paragraphs (stream docx_file) ;;;
       Ok (Str.join Str.newline paragraphs))
      "Error reading document: " in
  status (upload_document (Some docx_file) st).1 = 200 →
  forallb (λ r, negb (is_upload r)) rs = true →
  status (upload_document (Some pdf_file) later).1 = 200 →
  Str.endswith (Str.lower pdf_name) ".pdf" = true →
  docx_name = Str.drop_last 4 pdf_name +:+ ".docx" →
  Dict.get docx_name (loaded_documents first) = Some text ∧
  Dict.get pdf_name
    (loaded_documents (upload_document (Some pdf_file) later).2) = Some text.
Proof.
  intros docx_name pdf_name first later text Hok1 Hrs Hok2 Hpdf Hstem.
  assert (Str.endswith (Str.lower docx_name) ".docx" = true) as Hdocx.
  { rewrite Hstem, lower_app. apply endswith_app. }
  assert (disk later =
          <[os_path_join UPLOAD_FOLDER docx_name := File (stream docx_file)]>
            (disk st)) as Hdisk.
  { subst later. rewrite serve_keeps_disk by done. subst first.
    by destruct (upload_document_200 docx_file st Hok1) as (-> & _ & _). }
  assert (extract_text_from_docx (disk later)
            (os_path_join UPLOAD_FOLDER docx_name) = text) as Htext.
  { rewrite Hdisk. unfold extract_text_from_docx, docx_text.
    by rewrite read_bytes_insert_eq. }
  split.
  - subst first.
    destruct (upload_document_200 docx_file st Hok1) as (-> & _ & _). simpl.
    fold docx_name. rewrite dict_get_set_eq. f_equal.
    unfold upload_text. rewrite Hdocx. by rewrite <- Hdisk.
  - destruct (upload_document_200 pdf_file later Hok2) as (-> & _ & _). simpl.
    fold pdf_name. rewrite dict_get_set_eq. f_equal.
    rewrite (upload_text_pdf (disk later) pdf_name (stream pdf_file) Hpdf).
    rewrite <- Hstem.
    assert (os_path_exists (disk later)
              (os_path_join UPLOAD_FOLDER docx_name) = true) as ->; [|done].
    unfold os_path_exists. apply bool_decide_eq_true.
    rewrite Hdisk, lookup_insert_eq. by eauto.
Qed.

Lemma pdf_after_docx_stores_docx_text_witness :
  let first :=
    (upload_document (ext := Sample.libs)
       (Some {| filename := "report.docx"; stream := Sample.report_docx |})
       (startup ∅)).2 in
  let later := serve (ext := Sample.libs) [PostClear; GetDocuments] first in
  Dict.get "report.pdf"
    (loaded_documents
       (upload_document (ext := Sample.libs)
          (Some {| filename := "report.pdf"; stream := Sample.good_pdf |})
          later).2) = Some "Quarterly report".
Proof.
  exact (proj2 (pdf_after_docx_stores_docx_text (ext := Sample.libs)
           {| filename := "report.docx"; stream := Sample.report_docx |}
           {| filename := "report.pdf"; stream := Sample.good_pdf |}
           [PostClear; GetDocuments] (startup ∅)
           eq_refl eq_refl eq_refl eq_refl eq_refl)).
Defined.

(** ** The list of documents over a run *)

Section Listing.
Context `{ext : External}.

(** One request: the list of keys afterwards, from the list before and
    the response. *)
Lemma handle_listed r st :
  Dict.keys (loaded_documents (handle r st).2) =
    listed_after r (handle r st).1 (Dict.keys (loaded_documents st)).
Proof.
  destruct r as [|req|api req| |]; try done.
  cbn [handle listed_after]. destruct req as [file|]; [|done].
  destruct (decide (status (upload_document (Some file) st).1 = 200))
    as [Hok|Hno].
  - destruct (upload_document_200 file st Hok) as (-> & _ & _). simpl.
    apply dict_keys_set_list.
  - by rewrite upload_document_not_200.
Qed.
End Listing.

(** X10.  After any run from the start, [list_documents] names the keys
    of the uploads answered 200 since the last clear, each once, in the
    order in which each was first uploaded since then: an upload of a key
    already listed does not move it. *)
Theorem list_documents_in_upload_order `{ext : External}
    (rs : list request) (fs : filesystem) :
  let st := serve rs (startup fs) in
  let names := listed rs (startup fs) [] in
  list_documents (loaded_documents st) =
    {| status := 200; body := JObj [("documents", JArr (JStr <$> names))] |} ∧
  NoDup names.
Proof.
  intros st names.
  assert (Dict.keys (loaded_documents st) = names) as Hkeys.
  { subst st names.
    enough (∀ st0 L, Dict.keys (loaded_documents st0) = L →
              Dict.keys (loaded_documents (serve rs st0)) = listed rs st0 L)
      as Hrun by (by apply Hrun).
    induction rs as [|r rs IH]; intros st0 L HL; [done|].
    rewrite serve_cons. cbn [listed].
    pose proof (handle_listed r st0) as Hstep.
    destruct (handle r st0) as [resp st1]. apply IH. by rewrite <- HL. }
  split.
  - unfold list_documents. by rewrite Hkeys.
  - rewrite <- Hkeys. subst st. apply serve_keys_no_duplicates.
    apply NoDup_nil_2.
Qed.

Example listed_run :
  listed (ext := Sample.libs)
    [ PostUpload (Some {| filename := "b.txt"; stream := [] |});
      PostUpload (Some {| filename := "a.txt"; stream := [] |});
      PostUpload (Some {| filename := "virus.exe"; stream := [] |});
      PostUpload (Some {| filename := "b.txt"; stream := Sample.file_of "new" |}) ]
    (startup ∅) [] = ["b.txt"; "a.txt"].
Proof. reflexivity. Qed.

(** ** Which document a chat uses, and what comes back *)

Section ChatOutcomes.
Context `{ext : External}.
Implicit Types (docs : list (string * string)) (data : list (string * json)).

(** The first branch of the selector: a non-empty string that is a key. *)
Lemma select_context_key k docs doc_text :
  k ≠ "" → Dict.get k docs = Some doc_text →
  select_context (JStr k) docs = Ok (Some doc_text).
Proof.
  intros Hk Hget. unfold select_context, key_in_documents.
  cbn [json_truthy hashable]. destruct k as [|c k]; [done|].
  cbn [Str.truthy rbind].
  assert (Dict.mem (String c k) docs = true) as ->
    by (unfold Dict.mem; apply bool_decide_eq_true; by rewrite Hget).
  by rewrite Hget.
Qed.

Lemma dict_first_key {V} (d : list (string * V)) k0 :
  Dict.keys d !! 0 = Some k0 →
  ∃ v, Dict.get k0 d = Some v ∧ Dict.values d !! 0 = Some v.
Proof.
  destruct d as [|[k v] d]; [done|]. simpl. intros [= ->].
  exists v. by rewrite decide_True.
Qed.

(** The selector raises only for a document id that has no hash. *)
Lemma select_context_Raise document_id docs e :
  select_context document_id docs = Raise e → hashable document_id = false.
Proof.
  unfold select_context, key_in_documents.
  destruct (hashable document_id) eqn:Hh; [|done].
  destruct (json_truthy document_id); cbn [rbind].
  - destruct document_id as [| | |k| |]; try done;
      cbn [Dict.truthy]; try (destruct docs as [|[? ?] ?]; done).
    unfold Dict.mem. destruct (Dict.get k docs) as [t|] eqn:Hget.
    + by rewrite bool_decide_eq_true_2 by eauto.
    + rewrite bool_decide_eq_false_2 by (by intros [? ?]).
      by destruct docs as [|[? ?] ?].
  - by destruct docs as [|[? ?] ?].
Qed.
End ChatOutcomes.

(** X11.  A chat request with a non-empty message whose document id is a
    key of the store gets the text of that document as its context, not the
    first one's; what else is loaded, and in which order, makes no
    difference to the answer. *)
Theorem chat_uses_requested_document `{ext : External}
    (api : completion_api) (data : list (string * json))
    (docs : list (string * string)) (k doc_text : string) :
  let user_message := Dict.get_default "message" (JStr "") data in
  json_truthy user_message = true →
  Dict.get "document_id" data = Some (JStr k) →
  k ≠ "" →
  Dict.get k docs = Some doc_text →
  (chat api (Ok (JObj data)) docs).2 = [completion_call doc_text user_message] ∧
  (∀ docs', Dict.get k docs' = Some doc_text →
            chat api (Ok (JObj data)) docs' = chat api (Ok (JObj data)) docs).
Proof.
  intros user_message Hm Hid Hk Hget.
  assert (Dict.get_default "document_id" JNull data = JStr k) as Hid'
    by (unfold Dict.get_default; by rewrite Hid).
  assert (∀ d, Dict.get k d = Some doc_text →
            chat api (Ok (JObj data)) d =
              match api (completion_call doc_text user_message) with
              | Raise e =>
                  (chat_failure e, [completion_call doc_text user_message])
              | Ok bot_reply =>
                  ({| status := 200;
                      body := JObj [("success", JBool true);
                                    ("reply", from_option JStr JNull bot_reply);
                                    ("document_id", JStr k)] |},
                   [completion_call doc_text user_message])
              end) as Hchat.
  { intros d Hd. unfold chat. cbv beta iota zeta. fold user_message.
    rewrite Hm, Hid'. cbn [negb].
    by rewrite (select_context_key k d doc_text Hk Hd). }
  split.
  - rewrite (Hchat docs Hget). by destruct (api _).
  - intros docs' Hget'. by rewrite (Hchat docs Hget), (Hchat docs' Hget').
Qed.

Lemma chat_uses_requested_document_witness :
  (chat (ext := Sample.libs) Sample.api
     (Ok (JObj [("message", JStr "How much?"); ("document_id", JStr "report.pdf")]))
     [("notes.txt", "green tea"); ("report.pdf", "Quarterly report")]).2 =
  [completion_call (ext := Sample.libs) "Quarterly report" (JStr "How much?")].
Proof.
  exact (proj1 (chat_uses_requested_document (ext := Sample.libs) Sample.api
           [("message", JStr "How much?"); ("document_id", JStr "report.pdf")]
           [("notes.txt", "green tea"); ("report.pdf", "Quarterly report")]
           "report.pdf" "Quarterly report"
           eq_refl eq_refl ltac:(done) eq_refl)).
Defined.

(** X12.  A text file is uploaded and answered 200, and a question is
    then asked about the key that the upload returned: the key is listed,
    and the one call to the remote service carries the decoded content of
    the file word for word, between [Document content:] and the question. *)
Theorem uploaded_text_reaches_the_prompt `{ext : External}
    (api : completion_api) (file : file_storage) (st : server)
    (question text : string) :
  let name := secure_filename (filename file) in
  let docs := loaded_documents (upload_document (Some file) st).2 in
  status (upload_document (Some file) st).1 = 200 →
  name ≠ "" →
  Str.endswith (Str.lower name) ".docx" = false →
  Str.endswith (Str.lower name) ".pdf" = false →
  utf8_decode (stream file) = Ok text →
  question ≠ "" →
  json_field "document_id" (body (upload_document (Some file) st).1) =
    Some (JStr name) ∧
  name ∈ Dict.keys docs ∧
  ∃ call,
    (chat api (Ok (JObj [("message", JStr question);
                         ("document_id", JStr name)])) docs).2 = [call] ∧
    content <$> messages call !! 1 =
      Some ("Document content:" +:+ Str.newline +:+ text +:+ Str.newline +:+
            Str.newline +:+ "User question: " +:+ question).
Proof.
  intros name docs Hok Hname Hdocx Hpdf Hdecode Hq.
  assert (Dict.get name docs = Some text) as Hget.
  { subst docs.
    destruct (upload_document_200 file st Hok) as (-> & _ & _). simpl.
    fold name. rewrite dict_get_set_eq. f_equal.
    unfold upload_text. rewrite Hdocx, Hpdf.
    unfold extract_text_from_txt, txt_text.
    rewrite read_bytes_insert_eq. cbn [rbind]. by rewrite Hdecode. }
  split_and!.
  - revert Hok. unfold upload_document. case_decide; [done|].
    destruct (allowed_file _); [|done]. simpl.
    by destruct (file_save _ _ _).
  - destruct (decide (name ∈ Dict.keys docs)) as [|Hn]; [done|].
    apply dict_get_None in Hn. congruence.
  - exists (completion_call text (JStr question)). split; [|done].
    unfold chat. cbv beta iota zeta.
    change (Dict.get_default "message" (JStr "")
              [("message", JStr question); ("document_id", JStr name)])
      with (JStr question).
    change (Dict.get_default "document_id" JNull
              [("message", JStr question); ("document_id", JStr name)])
      with (JStr name).
    destruct question; [done|]. cbn [json_truthy Str.truthy negb].
    rewrite (select_context_key name docs text Hname Hget).
    by destruct (api _).
Qed.

Lemma uploaded_text_reaches_the_prompt_witness :
  let outcome :=
    upload_document (ext := Sample.libs)
      (Some {| filename := "tea notes.txt";
               stream := Sample.file_of "green tea, 80 degrees" |})
      {| loaded_documents := [("report.pdf", "Quarterly report")]; disk := ∅ |} in
  json_field "document_id" (body outcome.1) = Some (JStr "tea_notes.txt") ∧
  "tea_notes.txt" ∈ Dict.keys (loaded_documents outcome.2) ∧
  ∃ call,
    (chat (ext := Sample.libs) Sample.api
       (Ok (JObj [("message", JStr "How hot?");
                  ("document_id", JStr "tea_notes.txt")]))
       (loaded_documents outcome.2)).2 = [call] ∧
    content <$> messages call !! 1 =
      Some ("Document content:" +:+ Str.newline +:+ "green tea, 80 degrees" +:+
            Str.newline +:+ Str.newline +:+ "User question: " +:+ "How hot?").
Proof.
  exact (uploaded_text_reaches_the_prompt (ext := Sample.libs) Sample.api
           {| filename := "tea notes.txt";
              stream := Sample.file_of "green tea, 80 degrees" |}
           {| loaded_documents := [("report.pdf", "Quarterly report")]; disk := ∅ |}
           "How hot?" "green tea, 80 degrees"
           eq_refl ltac:(done) eq_refl eq_refl eq_refl ltac:(done)).
Defined.

(** X13.  What a chat request can come to.  The answer is 200, 400 or
    500; at most one call is made to the remote service, never a second
    one after a failure; the answer is 200 exactly when one call was made
    and the service replied; a 400 is given without any call; and when the
    one call fails, the answer is 500 with the message of the service as
    its error and [success] false. *)
Theorem chat_outcomes `{ext : External}
    (api : completion_api) (req : chat_request) (docs : list (string * string)) :
  let resp := (chat api req docs).1 in
  let calls := (chat api req docs).2 in
  (status resp = 200 ∨ status resp = 400 ∨ status resp = 500) ∧
  length calls ≤ 1 ∧
  (status resp = 200 ↔ ∃ call reply, calls = [call] ∧ api call = Ok reply) ∧
  (status resp = 400 → calls = []) ∧
  (∀ call e, calls = [call] → api call = Raise e →
     resp = {| status := 500;
               body := JObj [("error", JStr e); ("success", JBool false)] |}).
Proof.
  intros resp calls. subst resp calls.
  destruct req as [[| | | | |data]|e]; cbn [chat];
    try (split_and!; [by auto | simpl; lia | split; [done|]
                     | done | done]; by intros (? & ? & ? & _)).
  cbv beta iota zeta.
  destruct (negb (json_truthy (Dict.get_default "message" (JStr "") data))).
  { split_and!; [by auto | simpl; lia | split; [done|] | done | done].
    by intros (? & ? & ? & _). }
  destruct (select_context _ docs) as [[doc_text|]|e].
  - destruct (api (completion_call doc_text _)) as [reply|e] eqn:Hapi; simpl.
    + split_and!; [by auto | lia | split; [by eauto | done] | done |].
      intros call e' [= <-]. congruence.
    + split_and!; [by auto | lia | split; [done|] | done |].
      * intros (call & reply & [= <-] & Hreply). congruence.
      * intros call e' [= <-]. rewrite Hapi. by intros [= <-].
  - split_and!; [by auto | simpl; lia | split; [done|] | done | done].
    by intros (? & ? & ? & _).
  - split_and!; [by auto | simpl; lia | split; [done|] | done | done].
    by intros (? & ? & ? & _).
Qed.

(** X14.  A chat request in the form of the interface is answered 500
    only when the remote service failed: the one call was made, it raised,
    and the error of the answer is the message it raised with. *)
Theorem chat_500_is_upstream_failure `{ext : External}
    (api : completion_api) (req : chat_request) (docs : list (string * string)) :
  chat_body_ok req = true →
  status (chat api req docs).1 = 500 →
  ∃ call e, (chat api req docs).2 = [call] ∧ api call = Raise e ∧
            json_field "error" (body (chat api req docs).1) = Some (JStr e).
Proof.
  destruct req as [[| | | | |data]|e]; try done.
  cbn [chat_body_ok chat]. cbv beta iota zeta. intros Hhash.
  destruct (negb _); [done|].
  destruct (select_context _ docs) as [[doc_text|]|e] eqn:Hs; [|done|].
  - destruct (api (completion_call doc_text _)) as [reply|e] eqn:Hapi;
      [done|]. intros _. by exists (completion_call doc_text
        (Dict.get_default "message" (JStr "") data)), e.
  - apply select_context_Raise in Hs. congruence.
Qed.

Lemma chat_500_is_upstream_failure_witness :
  ∃ call e,
    (chat (ext := Sample.libs) Sample.api_down
       (Ok (JObj [("message", JStr "Which tea?")]))
       [("notes.txt", "green tea")]).2 = [call] ∧
    Sample.api_down call = Raise e ∧
    json_field "error"
      (body (chat (ext := Sample.libs) Sample.api_down
               (Ok (JObj [("message", JStr "Which tea?")]))
               [("notes.txt", "green tea")]).1) = Some (JStr e).
Proof.
  exact (chat_500_is_upstream_failure (ext := Sample.libs) Sample.api_down
           (Ok (JObj [("message", JStr "Which tea?")]))
           [("notes.txt", "green tea")] eq_refl eq_refl).
Defined.

(** X15.  A chat request that is malformed is answered 500 without a
    call to the remote service, whatever is loaded: a body that could not be
    read or that is no JSON object, and a request with a non-empty message
    whose document id is a non-empty list or object, which the membership
    test of line 139 cannot hash. *)
Theorem chat_malformed_body `{ext : External}
    (api : completion_api) (req : chat_request) (docs : list (string * string)) :
  (∀ data, req ≠ Ok (JObj data)) ∨
  (∃ data, req = Ok (JObj data) ∧
     json_truthy (Dict.get_default "message" (JStr "") data) = true ∧
     json_truthy (Dict.get_default "document_id" JNull data) = true ∧
     hashable (Dict.get_default "document_id" JNull data) = false) →
  status (chat api req docs).1 = 500 ∧ (chat api req docs).2 = [].
Proof.
  intros [Hno | (data & -> & Hm & Hid & Hhash)].
  - destruct req as [[| | | | |data]|e]; try done. by destruct (Hno data).
  - unfold chat. cbv beta iota zeta. rewrite Hm. cbn [negb].
    unfold select_context, key_in_documents. by rewrite Hid, Hhash.
Qed.

Lemma chat_malformed_body_witness :
  status (chat (ext := Sample.libs) Sample.api
            (Ok (JObj [("message", JStr "Which tea?");
                       ("document_id", JArr [JStr "notes.txt"])]))
            [("notes.txt", "green tea")]).1 = 500 ∧
  (chat (ext := Sample.libs) Sample.api
     (Ok (JObj [("message", JStr "Which tea?");
                ("document_id", JArr [JStr "notes.txt"])]))
     [("notes.txt", "green tea")]).2 = [].
Proof.
  apply (chat_malformed_body (ext := Sample.libs) Sample.api
           (Ok (JObj [("message", JStr "Which tea?");
                      ("document_id", JArr [JStr "notes.txt"])]))
           [("notes.txt", "green tea")]).
  right. eexists. split; [reflexivity|]. by split_and!.
Defined.

(** X16.  A document id that Python takes for false (null, the empty
    string, zero, [false], an empty list, an empty object) is not looked up:
    the request is served as one without a document id, with the same
    status and the same call, even when the empty string is a key. *)
Theorem chat_ignores_falsy_document_id `{ext : External}
    (api : completion_api) (data data' : list (string * json))
    (docs : list (string * string)) :
  json_truthy (Dict.get_default "document_id" JNull data) = false →
  Dict.get "document_id" data' = None →
  Dict.get "message" data' = Dict.get "message" data →
  status (chat api (Ok (JObj data)) docs).1 =
    status (chat api (Ok (JObj data')) docs).1 ∧
  (chat api (Ok (JObj data)) docs).2 = (chat api (Ok (JObj data')) docs).2.
Proof.
  intros Hfalsy Hnone Hmsg. unfold chat. cbv beta iota zeta.
  unfold Dict.get_default in *. rewrite Hnone, Hmsg. cbn [default].
  destruct (negb _); [done|].
  assert (select_context (default JNull (Dict.get "document_id" data)) docs =
          select_context JNull docs) as ->
    by (unfold select_context; by rewrite Hfalsy).
  destruct (select_context JNull docs) as [[doc_text|]|e]; [|done..].
  by destruct (api _).
Qed.

Lemma chat_ignores_falsy_document_id_witness :
  (chat (ext := Sample.libs) Sample.api
     (Ok (JObj [("message", JStr "Which tea?"); ("document_id", JStr "")]))
     [("notes.txt", "green tea"); ("", "hidden")]).2 =
  (chat (ext := Sample.libs) Sample.api
     (Ok (JObj [("message", JStr "Which tea?")]))
     [("notes.txt", "green tea"); ("", "hidden")]).2.
Proof.
  exact (proj2 (chat_ignores_falsy_document_id (ext := Sample.libs) Sample.api
           [("message", JStr "Which tea?"); ("document_id", JStr "")]
           [("message", JStr "Which tea?")]
           [("notes.txt", "green tea"); ("", "hidden")]
           eq_refl eq_refl eq_refl)).
Defined.

(** X17.  Between two clears the document that answers a question without
    a document id does not change: whatever is uploaded, again or anew, the
    selector keeps returning the current text of the key that was loaded
    first. *)
Theorem fallback_document_is_stable `{ext : External}
    (rs : list request) (st : server) (k0 : string) :
  forallb (λ r, negb (is_clear r)) rs = true →
  Dict.keys (loaded_documents st) !! 0 = Some k0 →
  let docs := loaded_documents (serve rs st) in
  ∃ text, Dict.get k0 docs = Some text ∧
          select_context JNull docs = Ok (Some text).
Proof.
  intros Hrs Hfirst docs.
  pose proof (serve_first_key rs st k0 Hrs Hfirst) as Hk0. fold docs in Hk0.
  destruct (dict_first_key docs k0 Hk0) as (text & Hget & Hval).
  exists text. split; [done|].
  unfold select_context. cbn [json_truthy rbind].
  destruct docs as [|[k v] d]; [done|]. cbn [Dict.truthy]. by rewrite Hval.
Qed.

Lemma fallback_document_is_stable_witness :
  let docs :=
    loaded_documents
      (serve (ext := Sample.libs)
         [ PostUpload (Some {| filename := "report.docx";
                               stream := Sample.report_docx |});
           PostUpload (Some {| filename := "notes.txt";
                               stream := Sample.file_of "oolong" |}) ]
         {| loaded_documents := [("notes.txt", "green tea")]; disk := ∅ |}) in
  ∃ text, Dict.get "notes.txt" docs = Some text ∧
          select_context (ext := Sample.libs) JNull docs = Ok (Some text).
Proof.
  exact (fallback_document_is_stable (ext := Sample.libs)
           [ PostUpload (Some {| filename := "report.docx";
                                 stream := Sample.report_docx |});
             PostUpload (Some {| filename := "notes.txt";
                                 stream := Sample.file_of "oolong" |}) ]
           {| loaded_documents := [("notes.txt", "green tea")]; disk := ∅ |}
           "notes.txt" eq_refl eq_refl).
Defined.
